(** * lv_tjpgd: the LVGL image-decoder glue around TJpgDec

    A shallow embedding of [lv_tjpgd.c]: the four decoder entry points
    ([decoder_info], [decoder_open], [decoder_read], [decoder_close]) and the
    two callbacks handed to the decompression engine
    ([on_feed_decoder_cb], [on_decoder_line_output_cb]).  The whole-image
    callback [on_decoder_output_cb] is referenced from the compiled-out
    branch of [decoder_open] only and has no part in any run.

    Modelling conventions.
    - C integers are [Z]; a store into a fixed-width unsigned object wraps
      ([uint8], [uint16], [uint32]); arithmetic done in [int] is exact
      (signed overflow is not modelled).
    - Memory is a list of blocks, one per [malloc]; a pointer is [NULL] or a
      block with a byte offset.  Every access is checked: an access outside a
      live block has no defined behaviour and the operation yields [None];
      pointer arithmetic itself is not checked.  [malloc] always finds
      memory (the file never tests its result).
    - The C library's streams are a table of open streams over an immutable
      file system.
    - [JDEC jdec], [decoding_ctx_t user_ctx] and the two function-local
      statics of [decoder_read] are fields of one [world] record that every
      entry point threads through.
    - The decompression engine (tjpgd.c) is outside the file.  It is a
      parameter: a finite interaction script that may call the input and
      output callbacks and read or write memory before it returns. *)

From Stdlib Require Import ZArith Lia String List.
From stdpp Require Import base option list.
Import ListNotations.
Local Open Scope Z_scope.

(** ** Fixed-width integers *)

Definition wrap (bits v : Z) : Z := v mod 2 ^ bits.
Definition uint8 : Z -> Z := wrap 8.
Definition uint16 : Z -> Z := wrap 16.
Definition uint32 : Z -> Z := wrap 32.
(** Two's complement reading of the low 32 bits: the value an [int32_t]
    object holds after a store. *)
Definition int32 (v : Z) : Z := (v + 2 ^ 31) mod 2 ^ 32 - 2 ^ 31.

(** ** A state and failure monad

    [None] stands for "no defined result": undefined behaviour of the C
    program, or a loop that cannot exit. *)

Definition M (S A : Type) : Type := S -> option (A * S).

Definition ret {S A} (a : A) : M S A := fun s => Some (a, s).
Definition bind {S A B} (m : M S A) (k : A -> M S B) : M S B :=
  fun s => match m s with
           | Some (a, s') => k a s'
           | None => None
           end.
Definition fail {S A} : M S A := fun _ => None.
Definition gets {S A} (f : S -> A) : M S A := fun s => Some (f s, s).
Definition modify {S} (f : S -> S) : M S unit := fun s => Some (tt, f s).
Definition lift_opt {S A} (o : option A) : M S A :=
  fun s => match o with Some a => Some (a, s) | None => None end.

Declare Scope cmd_scope.
Delimit Scope cmd_scope with cmd.
Notation "x <- m ;; k" := (bind m (fun x => k))
  (at level 100, m at next level, right associativity) : cmd_scope.
Notation "m ;; k" := (bind m (fun _ => k))
  (at level 100, right associativity) : cmd_scope.

(** ** Memory *)

(** A byte of memory; [None] is an indeterminate value (allocated, never
    written). *)
Definition cell : Type := option Byte.byte.

(** Block number and byte offset; [None] is the null pointer. *)
Definition ptr : Type := option (nat * Z).
Definition NULL : ptr := None.

(** A block is [None] once it has been freed. *)
Abbreviation heap := (list (option (list cell))).

Definition ptr_add (p : ptr) (d : Z) : ptr :=
  match p with
  | Some (b, o) => Some (b, o + d)
  | None => None
  end.

Definition is_null (p : ptr) : bool :=
  match p with Some _ => false | None => true end.

Definition live (b : nat) (h : heap) : bool :=
  match h !! b with
  | Some (Some _) => true
  | _ => false
  end.

Definition malloc (n : Z) (h : heap) : ptr * heap :=
  (Some (length h, 0), h ++ [Some (replicate (Z.to_nat n) None)]).

Definition free (p : ptr) (h : heap) : option heap :=
  match p with
  | None => Some h
  | Some (b, o) =>
      if (o =? 0) && live b h then Some (<[b := None]> h) else None
  end.

Definition load (p : ptr) (n : Z) (h : heap) : option (list cell) :=
  match p with
  | Some (b, o) =>
      match h !! b with
      | Some (Some cs) =>
          if (0 <=? o) && (0 <=? n) && (o + n <=? Z.of_nat (length cs))
          then Some (take (Z.to_nat n) (drop (Z.to_nat o) cs))
          else None
      | _ => None
      end
  | None => None
  end.

Definition store (p : ptr) (data : list cell) (h : heap) : option heap :=
  match p with
  | Some (b, o) =>
      match h !! b with
      | Some (Some cs) =>
          if (0 <=? o) && (o + Z.of_nat (length data) <=? Z.of_nat (length cs))
          then Some (<[b := Some (take (Z.to_nat o) cs ++ data
                                   ++ drop (Z.to_nat o + length data) cs)]> h)
          else None
      | _ => None
      end
  | None => None
  end.

(** The two areas of a [memcpy] must not overlap. *)
Definition overlap (dst src : ptr) (n : Z) : bool :=
  match dst, src with
  | Some (b1, o1), Some (b2, o2) =>
      Nat.eqb b1 b2 && (0 <? n) && (o1 <? o2 + n) && (o2 <? o1 + n)
  | _, _ => false
  end.

Definition memcpy (dst src : ptr) (n : Z) (h : heap) : option heap :=
  if overlap dst src n then None
  else match load src n h with
       | Some data => store dst data h
       | None => None
       end.

(** ** Streams *)

Record file := { f_data : list Byte.byte; f_seekable : bool }.

Record stream := { s_data : list Byte.byte; s_pos : Z; s_seekable : bool }.

(** [FILE *]: a slot of the stream table, or the null pointer. *)
Definition FILE : Type := option nat.

(** The C runtime the program runs on: the heap, the file system and the
    table of streams ([None] for a closed one). *)
Record env := {
  e_heap : heap;
  e_fs : list (string * file);
  e_streams : list (option stream)
}.

Definition with_heap (h : heap) (e : env) : env :=
  {| e_heap := h; e_fs := e_fs e; e_streams := e_streams e |}.
Definition with_streams (ss : list (option stream)) (e : env) : env :=
  {| e_heap := e_heap e; e_fs := e_fs e; e_streams := ss |}.

Fixpoint find_file (fn : string) (fs : list (string * file)) : option file :=
  match fs with
  | [] => None
  | (n, f) :: fs' => if String.eqb n fn then Some f else find_file fn fs'
  end.

Definition get_stream (fp : FILE) (e : env) : option stream :=
  match fp with
  | Some i => match e_streams e !! i with
              | Some (Some s) => Some s
              | _ => None
              end
  | None => None
  end.

Definition is_open (fp : FILE) (e : env) : bool :=
  match get_stream fp e with Some _ => true | None => false end.

Definition put_stream (fp : FILE) (s : stream) (e : env) : env :=
  match fp with
  | Some i => with_streams (<[i := Some s]> (e_streams e)) e
  | None => e
  end.

(** [fopen(fn, "rb")]: the null pointer when there is no such file. *)
Definition fopen (fn : string) (e : env) : FILE * env :=
  match find_file fn (e_fs e) with
  | Some f =>
      (Some (length (e_streams e)),
       with_streams (e_streams e ++
                     [Some {| s_data := f_data f; s_pos := 0;
                              s_seekable := f_seekable f |}]) e)
  | None => (None, e)
  end.

(** [fclose(fp)].  The file never calls it; it is here to say what a closed
    stream is. *)
Definition fclose (fp : FILE) (e : env) : option env :=
  match fp, get_stream fp e with
  | Some i, Some _ => Some (with_streams (<[i := None]> (e_streams e)) e)
  | _, _ => None
  end.

(** The bytes [fread] can deliver: at most [n], from the position on. *)
Definition readable (n : Z) (s : stream) : list Byte.byte :=
  take (Z.to_nat n) (drop (Z.to_nat (s_pos s)) (s_data s)).

(** [fread(buff, 1, n, fp)]: the count of bytes read. *)
Definition fread (buff : ptr) (n : Z) (fp : FILE) (e : env) : option (Z * env) :=
  match get_stream fp e with
  | Some s =>
      let data := readable n s in
      let k := Z.of_nat (length data) in
      match store buff (map Some data) (e_heap e) with
      | Some h =>
          Some (k, put_stream fp {| s_data := s_data s; s_pos := s_pos s + k;
                                     s_seekable := s_seekable s |}
                     (with_heap h e))
      | None => None
      end
  | None => None
  end.

(** [fseek(fp, off, SEEK_CUR)]: 0, or -1 when the stream cannot seek or the
    new position would be negative. *)
Definition fseek_cur (fp : FILE) (off : Z) (e : env) : option (Z * env) :=
  match get_stream fp e with
  | Some s =>
      if s_seekable s && (0 <=? s_pos s + off)
      then Some (0, put_stream fp {| s_data := s_data s; s_pos := s_pos s + off;
                                      s_seekable := s_seekable s |} e)
      else Some (-1, e)
  | None => None
  end.

(** [ftell(fp)]. *)
Definition ftell (fp : FILE) (e : env) : option Z :=
  match get_stream fp e with
  | Some s => Some (if s_seekable s then s_pos s else -1)
  | None => None
  end.

(** ** Types of the program and of its collaborators *)

(** tjpgd.h: the rectangle handed to the output function, four [uint16_t]. *)
Record JRECT := { left : Z; right : Z; top : Z; bottom : Z }.

(** tjpgd.h: the result codes of the engine. *)
Inductive JRESULT :=
| JDR_OK | JDR_INTR | JDR_INP | JDR_MEM1 | JDR_MEM2
| JDR_PAR | JDR_FMT1 | JDR_FMT2 | JDR_FMT3.

Definition JRESULT_is_ok (r : JRESULT) : bool :=
  match r with JDR_OK => true | _ => false end.

(** What [jd->device] points to: nothing, or [user_ctx] (the only device
    object of the file). *)
Inductive device_t := DevNull | DevUserCtx.

(** The decoding session [JDEC]: the three fields the file touches and the
    rest, which only the engine reads and writes. *)
Record JDEC {P : Type} := {
  width : Z;
  height : Z;
  device : device_t;
  priv : P
}.
Arguments JDEC : clear implicits.

Definition set_height {P} (h : Z) (jd : JDEC P) : JDEC P :=
  {| width := width jd; height := h; device := device jd; priv := priv jd |}.
Definition set_priv {P} (p : P) (jd : JDEC P) : JDEC P :=
  {| width := width jd; height := height jd; device := device jd; priv := p |}.

Inductive lv_res_t := LV_RES_INV | LV_RES_OK.

Inductive lv_img_src_t :=
| LV_IMG_SRC_VARIABLE | LV_IMG_SRC_FILE | LV_IMG_SRC_SYMBOL | LV_IMG_SRC_UNKNOWN.

Inductive lv_img_cf_t := LV_IMG_CF_UNKNOWN | LV_IMG_CF_RAW.

Record lv_img_header_t := {
  always_zero : Z;
  cf : lv_img_cf_t;
  w : Z;
  h : Z
}.

(** The image source [const void * src], by what it points to: a file name,
    an image descriptor in memory, a symbol, or nothing usable. *)
Inductive img_src :=
| SrcFile (fn : string)
| SrcVariable
| SrcSymbol
| SrcUnknown.

Definition lv_img_src_get_type (src : img_src) : lv_img_src_t :=
  match src with
  | SrcFile _ => LV_IMG_SRC_FILE
  | SrcVariable => LV_IMG_SRC_VARIABLE
  | SrcSymbol => LV_IMG_SRC_SYMBOL
  | SrcUnknown => LV_IMG_SRC_UNKNOWN
  end.

(** The fields of [lv_img_decoder_dsc_t] the file uses. *)
Record lv_img_decoder_dsc_t := {
  src : img_src;
  img_data : ptr
}.

Definition src_type (dsc : lv_img_decoder_dsc_t) : lv_img_src_t :=
  lv_img_src_get_type (src dsc).

Record img_size := { sz_height : Z; sz_width : Z }.

Record decoding_ctx_t := {
  fp : FILE;
  frame_buffer : ptr;
  work : ptr;
  out_func_calls : Z;
  frame_buffer_width : Z;
  size : img_size;
  last_decoded_coord : JRECT;
  lvgl_feeder_ptr : ptr;
  after_decode_pos : Z;
  fp_consumed_bytes : Z
}.

Definition set_fp (v : FILE) (c : decoding_ctx_t) : decoding_ctx_t :=
  {| fp := v; frame_buffer := frame_buffer c; work := work c;
     out_func_calls := out_func_calls c;
     frame_buffer_width := frame_buffer_width c; size := size c;
     last_decoded_coord := last_decoded_coord c;
     lvgl_feeder_ptr := lvgl_feeder_ptr c;
     after_decode_pos := after_decode_pos c;
     fp_consumed_bytes := fp_consumed_bytes c |}.
Definition set_frame_buffer (v : ptr) (c : decoding_ctx_t) : decoding_ctx_t :=
  {| fp := fp c; frame_buffer := v; work := work c;
     out_func_calls := out_func_calls c;
     frame_buffer_width := frame_buffer_width c; size := size c;
     last_decoded_coord := last_decoded_coord c;
     lvgl_feeder_ptr := lvgl_feeder_ptr c;
     after_decode_pos := after_decode_pos c;
     fp_consumed_bytes := fp_consumed_bytes c |}.
Definition set_work (v : ptr) (c : decoding_ctx_t) : decoding_ctx_t :=
  {| fp := fp c; frame_buffer := frame_buffer c; work := v;
     out_func_calls := out_func_calls c;
     frame_buffer_width := frame_buffer_width c; size := size c;
     last_decoded_coord := last_decoded_coord c;
     lvgl_feeder_ptr := lvgl_feeder_ptr c;
     after_decode_pos := after_decode_pos c;
     fp_consumed_bytes := fp_consumed_bytes c |}.
Definition set_out_func_calls (v : Z) (c : decoding_ctx_t) : decoding_ctx_t :=
  {| fp := fp c; frame_buffer := frame_buffer c; work := work c;
     out_func_calls := v;
     frame_buffer_width := frame_buffer_width c; size := size c;
     last_decoded_coord := last_decoded_coord c;
     lvgl_feeder_ptr := lvgl_feeder_ptr c;
     after_decode_pos := after_decode_pos c;
     fp_consumed_bytes := fp_consumed_bytes c |}.
Definition set_frame_buffer_width (v : Z) (c : decoding_ctx_t) : decoding_ctx_t :=
  {| fp := fp c; frame_buffer := frame_buffer c; work := work c;
     out_func_calls := out_func_calls c;
     frame_buffer_width := v; size := size c;
     last_decoded_coord := last_decoded_coord c;
     lvgl_feeder_ptr := lvgl_feeder_ptr c;
     after_decode_pos := after_decode_pos c;
     fp_consumed_bytes := fp_consumed_bytes c |}.
Definition set_size (v : img_size) (c : decoding_ctx_t) : decoding_ctx_t :=
  {| fp := fp c; frame_buffer := frame_buffer c; work := work c;
     out_func_calls := out_func_calls c;
     frame_buffer_width := frame_buffer_width c; size := v;
     last_decoded_coord := last_decoded_coord c;
     lvgl_feeder_ptr := lvgl_feeder_ptr c;
     after_decode_pos := after_decode_pos c;
     fp_consumed_bytes := fp_consumed_bytes c |}.
Definition set_last_decoded_coord (v : JRECT) (c : decoding_ctx_t) : decoding_ctx_t :=
  {| fp := fp c; frame_buffer := frame_buffer c; work := work c;
     out_func_calls := out_func_calls c;
     frame_buffer_width := frame_buffer_width c; size := size c;
     last_decoded_coord := v;
     lvgl_feeder_ptr := lvgl_feeder_ptr c;
     after_decode_pos := after_decode_pos c;
     fp_consumed_bytes := fp_consumed_bytes c |}.
Definition set_lvgl_feeder_ptr (v : ptr) (c : decoding_ctx_t) : decoding_ctx_t :=
  {| fp := fp c; frame_buffer := frame_buffer c; work := work c;
     out_func_calls := out_func_calls c;
     frame_buffer_width := frame_buffer_width c; size := size c;
     last_decoded_coord := last_decoded_coord c;
     lvgl_feeder_ptr := v;
     after_decode_pos := after_decode_pos c;
     fp_consumed_bytes := fp_consumed_bytes c |}.
Definition set_after_decode_pos (v : Z) (c : decoding_ctx_t) : decoding_ctx_t :=
  {| fp := fp c; frame_buffer := frame_buffer c; work := work c;
     out_func_calls := out_func_calls c;
     frame_buffer_width := frame_buffer_width c; size := size c;
     last_decoded_coord := last_decoded_coord c;
     lvgl_feeder_ptr := lvgl_feeder_ptr c;
     after_decode_pos := v;
     fp_consumed_bytes := fp_consumed_bytes c |}.
Definition set_fp_consumed_bytes (v : Z) (c : decoding_ctx_t) : decoding_ctx_t :=
  {| fp := fp c; frame_buffer := frame_buffer c; work := work c;
     out_func_calls := out_func_calls c;
     frame_buffer_width := frame_buffer_width c; size := size c;
     last_decoded_coord := last_decoded_coord c;
     lvgl_feeder_ptr := lvgl_feeder_ptr c;
     after_decode_pos := after_decode_pos c;
     fp_consumed_bytes := v |}.

(** What a callback works on: the device object and the C runtime. *)
Record dstate := { d_ctx : decoding_ctx_t; d_env : env }.

Definition on_ctx (f : decoding_ctx_t -> decoding_ctx_t) : M dstate unit :=
  modify (fun d => {| d_ctx := f (d_ctx d); d_env := d_env d |}).
Definition on_heap (f : heap -> option heap) : M dstate unit :=
  fun d => match f (e_heap (d_env d)) with
           | Some hp => Some (tt, {| d_ctx := d_ctx d;
                                      d_env := with_heap hp (d_env d) |})
           | None => None
           end.
Definition on_env {A} (f : env -> option (A * env)) : M dstate A :=
  fun d => match f (d_env d) with
           | Some (a, e) => Some (a, {| d_ctx := d_ctx d; d_env := e |})
           | None => None
           end.

(** ** The engine, as seen from this file

    A run of [jd_prepare] or [jd_decomp] is a finite script: it returns, or
    calls the input function, or calls the output function, or reads or
    writes memory (its work area), and goes on with the answer. *)
Inductive engine (R : Type) : Type :=
| Ret (r : R)
| Infunc (buff : ptr) (nbyte : Z) (k : Z -> engine R)
| Outfunc (bitmap : ptr) (rect : JRECT) (k : Z -> engine R)
| Peek (p : ptr) (n : Z) (k : list cell -> engine R)
| Poke (p : ptr) (cs : list cell) (k : engine R).
Arguments Ret {R} r.
Arguments Infunc {R} buff nbyte k.
Arguments Outfunc {R} bitmap rect k.
Arguments Peek {R} p n k.
Arguments Poke {R} p cs k.

(** tjpgd.h and tjpgd.c.  [jd_prepare] gets the session, the work area and
    its size, and reports a result, the image width and height, and the
    engine's part of the session; [jd_decomp] gets the session and the scale
    and reports a result and the engine's part of the session (it reads
    [width] and [height] and leaves them as they are). *)
Class Tjpgd := {
  jd_work : Type;
  jd_work0 : jd_work;
  jd_prepare : JDEC jd_work -> ptr -> Z -> engine (JRESULT * (Z * Z) * jd_work);
  jd_decomp : JDEC jd_work -> Z -> engine (JRESULT * jd_work)
}.

(** lv_tjpgd.h: the macros of the scaling factor and of the pixel size. *)
Class LvTjpgdConf := {
  LV_TJPGD_SCALING_FACTOR : Z;
  LV_TJPGD_SCALING_FACTOR_DIV : Z;
  BYTES_ON_PIXEL : Z
}.

(** lvgl.h: the conversion of an [int] to [lv_coord_t], and the conversion
    done by a store into the [w] or [h] field of [lv_img_header_t]. *)
Class Lvgl := {
  lv_coord_t_of : Z -> Z;
  hdr_dim_of : Z -> Z
}.

(** The callbacks are passed as function pointers; [None] where the caller
    has none to offer. *)
Definition infunc_t : Type := device_t -> ptr -> Z -> M dstate Z.
Definition outfunc_t : Type := device_t -> ptr -> JRECT -> M dstate Z.

Fixpoint run_engine {R} (infunc : option infunc_t) (outfunc : option outfunc_t)
    (jd : device_t) (e : engine R) : M dstate R :=
  match e with
  | Ret r => ret r
  | Infunc buff nbyte k =>
      match infunc with
      | Some f => fun d => match f jd buff nbyte d with
                           | Some (n, d') => run_engine infunc outfunc jd (k n) d'
                           | None => None
                           end
      | None => fail
      end
  | Outfunc bitmap rect k =>
      match outfunc with
      | Some f => fun d => match f jd bitmap rect d with
                           | Some (n, d') => run_engine infunc outfunc jd (k n) d'
                           | None => None
                           end
      | None => fail
      end
  | Peek p n k =>
      fun d => match load p n (e_heap (d_env d)) with
               | Some cs => run_engine infunc outfunc jd (k cs) d
               | None => None
               end
  | Poke p cs k =>
      fun d => match store p cs (e_heap (d_env d)) with
               | Some hp => run_engine infunc outfunc jd k
                              {| d_ctx := d_ctx d; d_env := with_heap hp (d_env d) |}
               | None => None
               end
  end.

(** ** The program *)

Section Program.
Context `{Tjpgd} `{LvTjpgdConf} `{Lvgl}.
Local Open Scope cmd_scope.

Definition TJPGD_WORK_BUFFER_SIZE : Z := 20 * 1024.

Definition VALID_FILE_EXTENSION : string := "jpg".

(** [on_feed_decoder_cb(jd, buff, nbyte)]. *)
Definition on_feed_decoder_cb : infunc_t := fun jd buff nbyte =>
  match jd with
  | DevNull => fail
  | DevUserCtx =>
      on_ctx (fun c => set_fp_consumed_bytes (int32 (fp_consumed_bytes c + nbyte)) c);;
      f <- gets (fun d => fp (d_ctx d));;
      if is_null buff then
        r <- on_env (fseek_cur f nbyte);;
        ret (if r =? 0 then nbyte else 0)
      else
        n <- on_env (fread buff nbyte f);;
        ret (uint16 n)
  end.

(** The loop of the output callbacks,
    [for (uint16_t y = rect->top; y <= rect->bottom; y++)].
    The fuel counts the tests of the loop condition.  [y] has 65536 values:
    a loop that has not left after 65536 iterations never does. *)
Fixpoint copy_lines (fuel : nat) (y bot : Z) (sp dp : ptr) (bws bwd : Z)
    : M dstate unit :=
  match fuel with
  | O => fail
  | S fuel' =>
      if y <=? bot then
        on_heap (memcpy dp sp bws);;
        copy_lines fuel' (uint16 (y + 1)) bot (ptr_add sp bws) (ptr_add dp bwd)
          bws bwd
      else ret tt
  end.

Definition loop_fuel : nat := Z.to_nat 65537.
Global Arguments loop_fuel : simpl never.

(** [on_decoder_line_output_cb(jd, bitmap, rect)]. *)
Definition on_decoder_line_output_cb : outfunc_t := fun jd bitmap rect =>
  match jd with
  | DevNull => fail
  | DevUserCtx =>
      on_ctx (fun c => set_out_func_calls (uint32 (out_func_calls c + 1)) c);;
      on_ctx (fun c => set_last_decoded_coord
                {| left := left (last_decoded_coord c);
                   right := right (last_decoded_coord c);
                   top := top (last_decoded_coord c);
                   bottom := bottom rect |} c);;
      on_ctx (fun c => set_last_decoded_coord
                {| left := left (last_decoded_coord c);
                   right := right (last_decoded_coord c);
                   top := top rect;
                   bottom := bottom (last_decoded_coord c) |} c);;
      on_ctx (fun c => set_last_decoded_coord
                {| left := left rect;
                   right := right (last_decoded_coord c);
                   top := top (last_decoded_coord c);
                   bottom := bottom (last_decoded_coord c) |} c);;
      on_ctx (fun c => set_last_decoded_coord
                {| left := left (last_decoded_coord c);
                   right := right rect;
                   top := top (last_decoded_coord c);
                   bottom := bottom (last_decoded_coord c) |} c);;
      c <- gets d_ctx;;
      let sp := bitmap in
      let dp := ptr_add (frame_buffer c)
                  (BYTES_ON_PIXEL * (top rect * frame_buffer_width c + left rect)) in
      let bws := uint16 (BYTES_ON_PIXEL * (right rect - left rect + 1)) in
      let bwd := uint16 (BYTES_ON_PIXEL * frame_buffer_width c) in
      copy_lines loop_fuel (top rect) (bottom rect) sp dp bws bwd;;
      ret 1
  end.

(** [on_decoder_output_cb(jd, bitmap, rect)], the whole-image variant. *)
Definition on_decoder_output_cb : outfunc_t := fun jd bitmap rect =>
  match jd with
  | DevNull => fail
  | DevUserCtx =>
      on_ctx (fun c => set_out_func_calls (uint32 (out_func_calls c + 1)) c);;
      c <- gets d_ctx;;
      let sp := bitmap in
      let dp := ptr_add (frame_buffer c)
                  (BYTES_ON_PIXEL * (top rect * frame_buffer_width c + left rect)) in
      let bws := uint16 (BYTES_ON_PIXEL * (right rect - left rect + 1)) in
      let bwd := uint16 (BYTES_ON_PIXEL * frame_buffer_width c) in
      copy_lines loop_fuel (top rect) (bottom rect) sp dp bws bwd;;
      ret 1
  end.

(** What the engine was asked to do and what it answered, in order:
    instrumentation only, no object of the C program. *)
Inductive event :=
| EvPrepare
| EvDecomp (jd_height : Z) (scale : Z)
| EvResult (res : JRESULT).

(** The objects with static storage duration, the C runtime, and the log of
    engine invocations. *)
Record world := {
  w_env : env;
  jdec : JDEC jd_work;
  user_ctx : decoding_ctx_t;
  buffered_data : bool;
  lines_sent : Z;
  trace : list event
}.

Definition with_env (v : env) (s : world) : world :=
  {| w_env := v; jdec := jdec s; user_ctx := user_ctx s;
     buffered_data := buffered_data s; lines_sent := lines_sent s;
     trace := trace s |}.
Definition with_jdec (v : JDEC jd_work) (s : world) : world :=
  {| w_env := w_env s; jdec := v; user_ctx := user_ctx s;
     buffered_data := buffered_data s; lines_sent := lines_sent s;
     trace := trace s |}.
Definition with_user_ctx (v : decoding_ctx_t) (s : world) : world :=
  {| w_env := w_env s; jdec := jdec s; user_ctx := v;
     buffered_data := buffered_data s; lines_sent := lines_sent s;
     trace := trace s |}.
Definition with_buffered_data (v : bool) (s : world) : world :=
  {| w_env := w_env s; jdec := jdec s; user_ctx := user_ctx s;
     buffered_data := v; lines_sent := lines_sent s;
     trace := trace s |}.
Definition with_lines_sent (v : Z) (s : world) : world :=
  {| w_env := w_env s; jdec := jdec s; user_ctx := user_ctx s;
     buffered_data := buffered_data s; lines_sent := v;
     trace := trace s |}.
Definition with_trace (v : list event) (s : world) : world :=
  {| w_env := w_env s; jdec := jdec s; user_ctx := user_ctx s;
     buffered_data := buffered_data s; lines_sent := lines_sent s;
     trace := v |}.

Definition upd_ctx (f : decoding_ctx_t -> decoding_ctx_t) : M world unit :=
  modify (fun s => with_user_ctx (f (user_ctx s)) s).
Definition ctx_field {A} (f : decoding_ctx_t -> A) : M world A :=
  gets (fun s => f (user_ctx s)).
Definition heap_op (f : heap -> option heap) : M world unit :=
  fun s => match f (e_heap (w_env s)) with
           | Some hp => Some (tt, with_env (with_heap hp (w_env s)) s)
           | None => None
           end.
Definition log (ev : event) : M world unit :=
  modify (fun s => with_trace (trace s ++ [ev]) s).

(** A callback-level computation, run on [user_ctx] and the runtime. *)
Definition in_session {A} (m : M dstate A) : M world A :=
  fun s => match m {| d_ctx := user_ctx s; d_env := w_env s |} with
           | Some (a, d) => Some (a, with_env (d_env d) (with_user_ctx (d_ctx d) s))
           | None => None
           end.

(** The input function a session holds: the one [jd_prepare] stored, along
    with the device. *)
Definition session_infunc (jd : JDEC jd_work) : option infunc_t :=
  match device jd with
  | DevUserCtx => Some on_feed_decoder_cb
  | DevNull => None
  end.

(** [!strcmp(&fn[strlen(fn) - 3], VALID_FILE_EXTENSION)]; a name shorter
    than three characters makes the address invalid. *)
Definition has_valid_extension (fn : string) : option bool :=
  if (String.length fn <? 3)%nat then None
  else Some (String.eqb (String.substring (String.length fn - 3) 3 fn)
                        VALID_FILE_EXTENSION).

(** [lv_tjpgd_init()]; the registration of the four entry points with LVGL
    has no effect on the state modelled here. *)
Definition lv_tjpgd_init : M world unit :=
  s <- gets id;;
  let (p, hp) := malloc TJPGD_WORK_BUFFER_SIZE (e_heap (w_env s)) in
  modify (with_env (with_heap hp (w_env s)));;
  upd_ctx (set_work p).

(** [decoder_info(decoder, src, header)]; the header is passed in and
    handed back with the result. *)
Definition decoder_info (src : img_src) (header : lv_img_header_t)
    : M world (lv_res_t * lv_img_header_t) :=
  let src_type := lv_img_src_get_type src in
  match src_type, src with
  | LV_IMG_SRC_FILE, SrcFile fn =>
      jpg <- lift_opt (has_valid_extension fn);;
      if jpg : bool then
        s <- gets id;;
        let (f, e) := fopen fn (w_env s) in
        modify (with_env e);;
        upd_ctx (set_fp f);;
        match f with
        | None => ret (LV_RES_INV, header)
        | Some _ =>
            jd <- gets jdec;;
            wk <- ctx_field work;;
            log EvPrepare;;
            r <- in_session
                   (run_engine (Some on_feed_decoder_cb) None DevUserCtx
                      (jd_prepare jd wk TJPGD_WORK_BUFFER_SIZE));;
            let '(res, (iw, ih), pv) := r in
            log (EvResult res);;
            modify (with_jdec {| width := iw; height := ih;
                                 device := DevUserCtx; priv := pv |});;
            if JRESULT_is_ok res then
              if LV_TJPGD_SCALING_FACTOR_DIV =? 0 then fail
              else
                let header1 :=
                  {| always_zero := 0; cf := LV_IMG_CF_RAW;
                     w := hdr_dim_of
                            (Z.quot (lv_coord_t_of iw) LV_TJPGD_SCALING_FACTOR_DIV);
                     h := hdr_dim_of 8 |} in
                upd_ctx (set_frame_buffer_width
                           (uint16 (Z.quot iw LV_TJPGD_SCALING_FACTOR_DIV)));;
                upd_ctx (fun c => set_size {| sz_height := uint16 (h header1);
                                              sz_width := sz_width (size c) |} c);;
                upd_ctx (fun c => set_size {| sz_height := sz_height (size c);
                                              sz_width := uint16 (w header1) |} c);;
                ret (LV_RES_OK, header1)
            else ret (LV_RES_INV, header)
        end
      else ret (LV_RES_INV, header)
  | LV_IMG_SRC_VARIABLE, _ => ret (LV_RES_OK, header)
  | _, _ => ret (LV_RES_INV, header)
  end.

(** [decoder_open(decoder, dsc)], with the whole-image branch compiled out
    as in the file; the descriptor is handed back with the result. *)
Definition decoder_open (dsc : lv_img_decoder_dsc_t)
    : M world (lv_res_t * lv_img_decoder_dsc_t) :=
  match src_type dsc, src dsc with
  | LV_IMG_SRC_FILE, SrcFile fn =>
      jpg <- lift_opt (has_valid_extension fn);;
      if jpg : bool then
        ret (LV_RES_OK, {| src := src dsc; img_data := NULL |})
      else ret (LV_RES_INV, dsc)
  | LV_IMG_SRC_VARIABLE, _ => ret (LV_RES_OK, dsc)
  | _, _ => ret (LV_RES_INV, dsc)
  end.

(** [decoder_read(decoder, dsc, x, y, len, buf)]. *)
Definition decoder_read (dsc : lv_img_decoder_dsc_t) (x y len : Z) (buf : ptr)
    : M world lv_res_t :=
  b <- gets buffered_data;;
  if b : bool then
    feeder <- ctx_field lvgl_feeder_ptr;;
    heap_op (memcpy buf feeder (len * BYTES_ON_PIXEL));;
    upd_ctx (fun c => set_lvgl_feeder_ptr
                        (ptr_add (lvgl_feeder_ptr c) (len * BYTES_ON_PIXEL)) c);;
    modify (fun s => with_lines_sent (uint8 (lines_sent s + 1)) s);;
    ls <- gets lines_sent;;
    (if 7 <? ls then
       modify (with_buffered_data false);;
       modify (with_lines_sent 0);;
       fb <- ctx_field frame_buffer;;
       heap_op (free fb);;
       upd_ctx (set_frame_buffer NULL)
     else ret tt);;
    ret LV_RES_OK
  else
    sw <- ctx_field (fun c => sz_width (size c));;
    let decoded_image_buffer_size := uint32 (sw * 8 * BYTES_ON_PIXEL) in
    s <- gets id;;
    let (p, hp) := malloc decoded_image_buffer_size (e_heap (w_env s)) in
    modify (with_env (with_heap hp (w_env s)));;
    upd_ctx (set_frame_buffer p);;
    f <- ctx_field fp;;
    before_decompression <- (fun s => lift_opt (ftell f (w_env s)) s);;
    modify (fun s => with_jdec (set_height 8 (jdec s)) s);;
    jd <- gets jdec;;
    log (EvDecomp (height jd) LV_TJPGD_SCALING_FACTOR);;
    r <- in_session
           (run_engine (session_infunc jd) (Some on_decoder_line_output_cb)
              (device jd) (jd_decomp jd LV_TJPGD_SCALING_FACTOR));;
    let '(error, pv) := r in
    log (EvResult error);;
    modify (fun s => with_jdec (set_priv pv (jdec s)) s);;
    let bytes_to_send := len * BYTES_ON_PIXEL in
    fb <- ctx_field frame_buffer;;
    heap_op (memcpy buf fb bytes_to_send);;
    modify (fun s => with_lines_sent (uint8 (lines_sent s + 1)) s);;
    upd_ctx (fun c => set_lvgl_feeder_ptr (ptr_add (frame_buffer c) bytes_to_send) c);;
    f' <- ctx_field fp;;
    pos <- (fun s => lift_opt (ftell f' (w_env s)) s);;
    upd_ctx (set_after_decode_pos pos);;
    modify (with_buffered_data true);;
    ret LV_RES_OK.

(** [decoder_close(decoder, dsc)]. *)
Definition decoder_close (dsc : lv_img_decoder_dsc_t) : M world unit :=
  wk <- ctx_field work;;
  heap_op (free wk);;
  if is_null (img_data dsc) then ret tt
  else heap_op (free (img_data dsc)).

End Program.

(** ** Sessions: sequences of calls made by the image consumer *)

Section Sessions.
Context `{Tjpgd} `{LvTjpgdConf} `{Lvgl}.
Local Open Scope cmd_scope.

Definition is_decomp (ev : event) : bool :=
  match ev with EvDecomp _ _ => true | _ => false end.

(** Invocations of [jd_decomp] and of [jd_prepare] so far. *)
Definition decomp_count (t : list event) : nat := length (List.filter is_decomp t).

(** The arguments of one line read: [x], [y], [len], [buf]. *)
Record read_args := { r_x : Z; r_y : Z; r_len : Z; r_buf : ptr }.

(** One [decoder_read] per element, in order; for each call its result and
    the number of [jd_decomp] invocations made during it. *)
Fixpoint read_rows (dsc : lv_img_decoder_dsc_t) (calls : list read_args)
    : M world (list (lv_res_t * nat)) :=
  match calls with
  | [] => ret []
  | a :: rest =>
      n0 <- gets (fun s => decomp_count (trace s));;
      r <- decoder_read dsc (r_x a) (r_y a) (r_len a) (r_buf a);;
      n1 <- gets (fun s => decomp_count (trace s));;
      out <- read_rows dsc rest;;
      ret ((r, (n1 - n0)%nat) :: out)
  end.

(** The operations the image consumer can ask for. *)
Inductive op :=
| OpInfo (src : img_src) (header : lv_img_header_t)
| OpOpen (dsc : lv_img_decoder_dsc_t)
| OpRead (dsc : lv_img_decoder_dsc_t) (x y len : Z) (buf : ptr)
| OpClose (dsc : lv_img_decoder_dsc_t).

Definition run_op (o : op) : M world unit :=
  match o with
  | OpInfo src header => _ <- decoder_info src header;; ret tt
  | OpOpen dsc => _ <- decoder_open dsc;; ret tt
  | OpRead dsc x y len buf => _ <- decoder_read dsc x y len buf;; ret tt
  | OpClose dsc => decoder_close dsc
  end.

Fixpoint run_ops (os : list op) : M world unit :=
  match os with
  | [] => ret tt
  | o :: rest => run_op o;; run_ops rest
  end.

(** The state at program start: objects with static storage duration are
    zero, nothing is allocated, no stream is open. *)
Definition zero_rect : JRECT := {| left := 0; right := 0; top := 0; bottom := 0 |}.

Definition zero_ctx : decoding_ctx_t :=
  {| fp := None; frame_buffer := NULL; work := NULL; out_func_calls := 0;
     frame_buffer_width := 0; size := {| sz_height := 0; sz_width := 0 |};
     last_decoded_coord := zero_rect; lvgl_feeder_ptr := NULL;
     after_decode_pos := 0; fp_consumed_bytes := 0 |}.

Definition boot (files : list (string * file)) : world :=
  {| w_env := {| e_heap := []; e_fs := files; e_streams := [] |};
     jdec := {| width := 0; height := 0; device := DevNull; priv := jd_work0 |};
     user_ctx := zero_ctx;
     buffered_data := false;
     lines_sent := 0;
     trace := [] |}.

(** A buffer of the image consumer, for the lines it reads. *)
Definition consumer_alloc (n : Z) : M world ptr :=
  fun s => let (p, hp) := malloc n (e_heap (w_env s)) in
           Some (p, with_env (with_heap hp (w_env s)) s).

End Sessions.

(** ** Vocabulary of the statements *)

Section Vocabulary.
Context `{Tjpgd} `{LvTjpgdConf} `{Lvgl}.

(** The line counter after the increment of a call (an [uint8_t]). *)
Definition bumped (s : world) : Z := uint8 (lines_sent s + 1).

(** The decompressions to expect from [n] line reads in a row, call by
    call, from the two statics of [decoder_read]. *)
Fixpoint expected_decomps (n : nat) (b : bool) (l : Z) : list nat :=
  match n with
  | O => []
  | S n' =>
      let c := uint8 (l + 1) in
      if b then
        if 7 <? c then 0%nat :: expected_decomps n' false 0
        else 0%nat :: expected_decomps n' true c
      else 1%nat :: expected_decomps n' true c
  end.

(** What a run of the engine with this file's callbacks cannot change: the
    pointers of the device object, which blocks are allocated, which
    streams are open, and the file system. *)
Definition same_resources (d d' : dstate) : Prop :=
  fp (d_ctx d') = fp (d_ctx d) /\
  work (d_ctx d') = work (d_ctx d) /\
  frame_buffer (d_ctx d') = frame_buffer (d_ctx d) /\
  lvgl_feeder_ptr (d_ctx d') = lvgl_feeder_ptr (d_ctx d) /\
  size (d_ctx d') = size (d_ctx d) /\
  frame_buffer_width (d_ctx d') = frame_buffer_width (d_ctx d) /\
  length (e_heap (d_env d')) = length (e_heap (d_env d)) /\
  (forall b, live b (e_heap (d_env d')) = live b (e_heap (d_env d))) /\
  e_fs (d_env d') = e_fs (d_env d) /\
  length (e_streams (d_env d')) = length (e_streams (d_env d)) /\
  (forall f, is_open f (d_env d') = is_open f (d_env d)).

(** Rows [k], [k+1], ... ([n] of them): row [j] goes from offset [j * rw]
    of the source to offset [j * stride] of the destination, [rw] bytes. *)
Fixpoint copy_rows (n : nat) (k : Z) (sp dp : ptr) (rw stride : Z) (hp : heap)
    : option heap :=
  match n with
  | O => Some hp
  | S n' =>
      match memcpy (ptr_add dp (k * stride)) (ptr_add sp (k * rw)) rw hp with
      | Some hp' => copy_rows n' (k + 1) sp dp rw stride hp'
      | None => None
      end
  end.

(** The row copy with a row width [rw] and a destination stride [stride]:
    the rows [top] to [bottom] of the rectangle, from the bitmap to the
    frame buffer at [BYTES_ON_PIXEL * (top * frame_buffer_width + left)];
    the call counted, the rectangle recorded, 1 returned. *)
Definition row_copy (rw stride : Z) (bitmap : ptr) (rect : JRECT) (d : dstate)
    : option (Z * dstate) :=
  let c := d_ctx d in
  let dst := ptr_add (frame_buffer c)
               (BYTES_ON_PIXEL * (top rect * frame_buffer_width c + left rect)) in
  match copy_rows (Z.to_nat (bottom rect - top rect + 1)) 0 bitmap dst rw stride
          (e_heap (d_env d)) with
  | Some hp =>
      Some (1, {| d_ctx := set_last_decoded_coord rect
                             (set_out_func_calls (uint32 (out_func_calls c + 1)) c);
                  d_env := with_heap hp (d_env d) |})
  | None => None
  end.

(** The row copy as the specification words it: row width
    [(right - left + 1) * BYTES_ON_PIXEL], stride
    [frame_buffer_width * BYTES_ON_PIXEL]. *)
Definition row_copy_as_stated (bitmap : ptr) (rect : JRECT) (d : dstate)
    : option (Z * dstate) :=
  row_copy ((right rect - left rect + 1) * BYTES_ON_PIXEL)
           (frame_buffer_width (d_ctx d) * BYTES_ON_PIXEL) bitmap rect d.

(** The size of an allocated block. *)
Definition block_size (b : nat) (hp : heap) : option Z :=
  match hp !! b with
  | Some (Some cs) => Some (Z.of_nat (length cs))
  | _ => None
  end.

(** The number of allocated blocks. *)
Definition is_block (o : option (list cell)) : bool :=
  match o with Some _ => true | None => false end.
Definition live_count (hp : heap) : nat := length (List.filter is_block hp).

(** What the two statics of [decoder_read] can hold between calls: no
    strip and no line served, or a strip with one to seven lines served. *)
Definition statics_ok (s : world) : Prop :=
  if buffered_data s then 1 <= lines_sent s <= 7 else lines_sent s = 0.

(** A strip that is said to be at hand has a buffer. *)
Definition strip_ok (s : world) : Prop :=
  buffered_data s = true -> frame_buffer (user_ctx s) <> NULL.

(** The block a pointer points into. *)
Definition block_of (p : ptr) : option nat :=
  match p with Some (b, _) => Some b | None => None end.

(** The bytes asked for by a run of line reads. *)
Definition bytes_asked (calls : list read_args) : Z :=
  fold_right (fun a acc => r_len a * BYTES_ON_PIXEL + acc) 0 calls.

(** The device object with the rectangle recorded. *)
Definition with_rect (rect : JRECT) (r : Z * dstate) : Z * dstate :=
  (fst r, {| d_ctx := set_last_decoded_coord rect (d_ctx (snd r));
             d_env := d_env (snd r) |}).

Definition b2n (b : bool) : nat := if b then 1%nat else 0%nat.

(** The parts of a defined result. *)
Definition value_of {S A} (d : A) (o : option (A * S)) : A :=
  match o with Some (a, _) => a | None => d end.
Definition state_of {S A} (d : S) (o : option (A * S)) : S :=
  match o with Some (_, s) => s | None => d end.
Definition defined {A} (o : option A) : bool :=
  match o with Some _ => true | None => false end.

(** The callbacks the file hands to the engine. *)
Definition file_infunc (f : option infunc_t) : Prop :=
  f = None \/ f = Some on_feed_decoder_cb.
Definition file_outfunc (f : option outfunc_t) : Prop :=
  f = None \/ f = Some on_decoder_line_output_cb.

End Vocabulary.

Ltac run_monad :=
  cbv beta iota delta
    [bind ret gets modify fail lift_opt upd_ctx ctx_field heap_op log
     in_session on_ctx on_heap on_env id] in *.

Ltac world_simpl :=
  cbv beta iota delta
    [with_env with_jdec with_user_ctx with_buffered_data with_lines_sent
     with_trace with_heap with_streams set_height set_priv
     set_fp set_frame_buffer set_work set_out_func_calls
     set_frame_buffer_width set_size set_last_decoded_coord
     set_lvgl_feeder_ptr set_after_decode_pos set_fp_consumed_bytes] in *;
  cbn [w_env jdec user_ctx buffered_data lines_sent trace d_ctx d_env
       width height device priv always_zero cf w h
       e_heap e_fs e_streams
       fp frame_buffer work out_func_calls frame_buffer_width size
       last_decoded_coord lvgl_feeder_ptr after_decode_pos fp_consumed_bytes
       sz_height sz_width left right top bottom
       fst snd JRESULT_is_ok is_null] in *.

(** ** A small engine and file system to run the program on

    A stand-in for tjpgd.c with the same interface.  Its image format: one
    byte of width, one byte of height, then the pixels strip by strip, each
    strip column by column (a column of the strip plays the part of a minimum
    coded unit), three bytes a pixel. *)

Module Demo.

Definition cell_val (c : cell) : Z :=
  match c with
  | Some b => Z.of_N (Byte.to_N b)
  | None => 0
  end.

Definition toy_prepare (pool : ptr) : engine (JRESULT * (Z * Z) * ptr) :=
  Infunc pool 2 (fun n =>
    if n =? 2 then
      Peek pool 2 (fun cs =>
        match cs with
        | [a; b] => Ret (JDR_OK, (cell_val a, cell_val b), pool)
        | _ => Ret (JDR_FMT1, (0, 0), pool)
        end)
    else Ret (JDR_INP, (0, 0), pool)).

(** One strip of [rows] lines: for every column, read it and hand it out. *)
Fixpoint toy_strip (cols : nat) (x rows : Z) (pool : ptr) : engine (JRESULT * ptr) :=
  match cols with
  | O => Ret (JDR_OK, pool)
  | S cols' =>
      Infunc pool (3 * rows) (fun n =>
        if n =? 3 * rows then
          Outfunc pool {| left := x; right := x; top := 0; bottom := rows - 1 |}
            (fun go => if go =? 0 then Ret (JDR_INTR, pool)
                       else toy_strip cols' (x + 1) rows pool)
        else Ret (JDR_INP, pool))
  end.

#[export] Instance toy : Tjpgd := {|
  jd_work := ptr;
  jd_work0 := NULL;
  jd_prepare := fun _ pool _ => toy_prepare pool;
  jd_decomp := fun jd _ => toy_strip (Z.to_nat (width jd)) 0 (height jd) (priv jd)
|}.

(** Scale 1/1 and three bytes a pixel. *)
#[export] Instance conf : LvTjpgdConf := {|
  LV_TJPGD_SCALING_FACTOR := 0;
  LV_TJPGD_SCALING_FACTOR_DIV := 1;
  BYTES_ON_PIXEL := 3
|}.

(** LVGL 7: [lv_coord_t] is [int16_t], the header keeps [w] and [h] in 11
    bits each. *)
#[export] Instance lvgl7 : Lvgl := {|
  lv_coord_t_of := fun v => (v + 2 ^ 15) mod 2 ^ 16 - 2 ^ 15;
  hdr_dim_of := fun v => v mod 2 ^ 11
|}.

Definition nat_byte (n : nat) : Byte.byte :=
  default Byte.x00 (Byte.of_nat (n mod 256)).

Definition pixels (n : nat) : list Byte.byte := map nat_byte (seq 1 n).

(** A 2 x 16 image (two strips); the same cut short inside the first strip;
    a file that ends inside the header; a whole image behind a stream that
    cannot seek. *)
Definition files : list (string * file) :=
  [ ("a.jpg"%string,
     {| f_data := nat_byte 2 :: nat_byte 16 :: pixels 96; f_seekable := true |});
    ("cut.jpg"%string,
     {| f_data := nat_byte 2 :: nat_byte 16 :: pixels 30; f_seekable := true |});
    ("bad.jpg"%string,
     {| f_data := [nat_byte 2]; f_seekable := true |});
    ("pipe.jpg"%string,
     {| f_data := nat_byte 2 :: nat_byte 16 :: pixels 96; f_seekable := false |}) ].

Definition header0 : lv_img_header_t :=
  {| always_zero := 0; cf := LV_IMG_CF_UNKNOWN; w := 0; h := 0 |}.

Definition dsc_of (fn : string) : lv_img_decoder_dsc_t :=
  {| src := SrcFile fn; img_data := NULL |}.

Local Open Scope cmd_scope.

(** Start-up, metadata query and open of [fn], and a line buffer of the
    consumer. *)
Definition start (fn : string)
    : M world (lv_res_t * lv_img_header_t * lv_img_decoder_dsc_t * ptr) :=
  lv_tjpgd_init;;
  i <- decoder_info (SrcFile fn) header0;;
  o <- decoder_open (dsc_of fn);;
  buf <- consumer_alloc 6;;
  ret (fst i, snd i, snd o, buf).

(** [n] line reads of two pixels, rows [y], [y+1], ... *)
Fixpoint lines (n : nat) (y : Z) (buf : ptr) : list read_args :=
  match n with
  | O => []
  | S n' => {| r_x := 0; r_y := y; r_len := 2; r_buf := buf |}
            :: lines n' (y + 1) buf
  end.

(** The state after start-up. *)
Definition booted : world := state_of (boot files) (lv_tjpgd_init (boot files)).

(** The state after [start fn] and [n] line reads. *)
Definition after_reads (fn : string) (n : nat) : option (ptr * world) :=
  (st <- start fn;;
   let '(_, _, dsc, buf) := st in
   _ <- read_rows dsc (lines n 0 buf);;
   ret buf) (boot files).

Definition line_buffer (fn : string) (n : nat) : ptr :=
  match after_reads fn n with Some (buf, _) => buf | None => NULL end.
Definition world_after (fn : string) (n : nat) : world :=
  match after_reads fn n with Some (_, s) => s | None => boot files end.

(** A device state for the row copy alone: a frame buffer of eight lines of
    [width] pixels in block 0, nothing written yet, and the engine's bitmap
    in block 1. *)
Definition strip_dstate (width : Z) (bitmap : list Byte.byte) : dstate :=
  {| d_ctx := set_frame_buffer_width width
                (set_frame_buffer (Some (0%nat, 0)) zero_ctx);
     d_env := {| e_heap := [Some (replicate (Z.to_nat (width * 8 * 3)) None);
                            Some (map Some bitmap)];
                 e_fs := []; e_streams := [] |} |}.

Definition heap_of (o : option (Z * dstate)) : heap :=
  match o with Some (_, d) => e_heap (d_env d) | None => [] end.

(** The device object and the runtime of a world, as the callbacks see
    them. *)
Definition dstate_of (s : world) : dstate :=
  {| d_ctx := user_ctx s; d_env := w_env s |}.

(** The stream of "a.jpg" once the header has been read. *)
Definition stream_a : stream :=
  {| s_data := nat_byte 2 :: nat_byte 16 :: pixels 96; s_pos := 2;
     s_seekable := true |}.

(** The rectangle of the second column of a strip, and a rectangle of two
    lines of one pixel. *)
Definition column_1 : JRECT := {| left := 1; right := 1; top := 0; bottom := 7 |}.
Definition two_lines : JRECT := {| left := 0; right := 0; top := 0; bottom := 1 |}.

(** The metadata query of [fn] after start-up, and its parts. *)
Definition info_run (fn : string) : option (lv_res_t * lv_img_header_t * world) :=
  decoder_info (SrcFile fn) header0 booted.
Definition info_header (fn : string) : lv_img_header_t :=
  snd (value_of (LV_RES_INV, header0) (info_run fn)).
Definition info_world (fn : string) : world := state_of booted (info_run fn).

(** Line read number [n] (from 0) of [fn], and the state it leaves. *)
Definition read_run (fn : string) (n : nat) : option (lv_res_t * world) :=
  decoder_read (dsc_of fn) 0 (Z.of_nat n) 2 (line_buffer fn n) (world_after fn n).
Definition read_world (fn : string) (n : nat) : world :=
  state_of (world_after fn n) (read_run fn n).

(** A request for column 1 of row 5 where row 1 is due. *)
Definition stray_run : option (lv_res_t * world) :=
  decoder_read (dsc_of "a.jpg") 1 5 2 (line_buffer "a.jpg" 1) (world_after "a.jpg" 1).

(** Sixteen line reads of "a.jpg" in a row. *)
Definition sixteen_run : option (list (lv_res_t * nat) * world) :=
  read_rows (dsc_of "a.jpg") (lines 16 0 (line_buffer "a.jpg" 0))
    (world_after "a.jpg" 0).

(** The file "a.jpg". *)
Definition file_a : file :=
  {| f_data := nat_byte 2 :: nat_byte 16 :: pixels 96; f_seekable := true |}.

(** The engine asks for 24 bytes more when "a.jpg" has been read to its
    end. *)
Definition feed_at_end : option (Z * dstate) :=
  on_feed_decoder_cb DevUserCtx (Some (0%nat, 0)) 24
    (dstate_of (world_after "a.jpg" 16)).

(** The engine decodes the second strip of "a.jpg" while the first is at
    hand. *)
Definition strip_run : option (JRESULT * ptr * dstate) :=
  run_engine (Some on_feed_decoder_cb) (Some on_decoder_line_output_cb)
    DevUserCtx (toy_strip 2 0 8 (Some (0%nat, 0)))
    (dstate_of (world_after "a.jpg" 1)).


(** A session after start-up: query, open, three lines into the work area,
    close. *)
Definition session_ops : list op :=
  [ OpInfo (SrcFile "a.jpg") header0;
    OpOpen (dsc_of "a.jpg");
    OpRead (dsc_of "a.jpg") 0 0 2 (Some (0%nat, 0));
    OpRead (dsc_of "a.jpg") 0 1 2 (Some (0%nat, 0));
    OpRead (dsc_of "a.jpg") 0 2 2 (Some (0%nat, 0));
    OpClose (dsc_of "a.jpg") ].
Definition session_run : option (unit * world) := run_ops session_ops booted.

(** A close after one line read. *)
Definition close_run : option (unit * world) :=
  decoder_close (dsc_of "a.jpg") (world_after "a.jpg" 1).

(** An open of a file that is not there. *)
Definition open_missing : option (lv_res_t * lv_img_decoder_dsc_t * world) :=
  decoder_open {| src := SrcFile "missing.jpg"; img_data := Some (7%nat, 0) |}
    booted.

(** A second metadata query of "a.jpg". *)
Definition second_info : option (lv_res_t * lv_img_header_t * world) :=
  decoder_info (SrcFile "a.jpg") header0 (info_world "a.jpg").

(** The second, third and fourth line of "a.jpg". *)
Definition next_lines : list read_args := lines 2 1 (line_buffer "a.jpg" 1).
Definition fourth_line : read_args :=
  {| r_x := 0; r_y := 3; r_len := 2; r_buf := line_buffer "a.jpg" 1 |}.
Definition slices_run : option (list (lv_res_t * nat) * world) :=
  read_rows (dsc_of "a.jpg") (next_lines ++ [fourth_line]) (world_after "a.jpg" 1).

(** A second session on "a.jpg": after start-up, query, open and three line
    reads, the metadata query and the open are made once more (the engine
    prepares anew on a stream of its own), and lines are read from row 0
    again. *)
Definition reopened : option (lv_res_t * lv_res_t * world) :=
  (i <- decoder_info (SrcFile "a.jpg") header0;;
   o <- decoder_open (dsc_of "a.jpg");;
   ret (fst i, fst o)) (world_after "a.jpg" 3).
Definition second_session : world := state_of (boot files) reopened.
Definition second_reads (n : nat) : option (list (lv_res_t * nat) * world) :=
  read_rows (dsc_of "a.jpg") (lines n 0 (line_buffer "a.jpg" 0)) second_session.
Definition second_world (n : nat) : world :=
  state_of second_session (second_reads n).

(** Where the stream of the session stands, and the line last handed to the
    consumer, as numbers. *)
Definition stream_pos (s : world) : option Z := ftell (fp (user_ctx s)) (w_env s).
Definition line_read (s : world) : option (list Z) :=
  option_map (map cell_val) (load (line_buffer "a.jpg" 0) 6 (e_heap (w_env s))).

End Demo.

(** ** The same engine for images of any 16-bit size

    The header of its format has the width and the height in two bytes
    each, the more significant byte first, as the frame header of a JPEG
    file has them. *)

Module Wide.
Import Demo.

Definition wide_prepare (pool : ptr) : engine (JRESULT * (Z * Z) * ptr) :=
  Infunc pool 4 (fun n =>
    if n =? 4 then
      Peek pool 4 (fun cs =>
        match cs with
        | [a; b; c; d] =>
            Ret (JDR_OK, (256 * cell_val a + cell_val b,
                          256 * cell_val c + cell_val d), pool)
        | _ => Ret (JDR_FMT1, (0, 0), pool)
        end)
    else Ret (JDR_INP, (0, 0), pool)).

#[local] Instance wide : Tjpgd := {|
  jd_work := ptr;
  jd_work0 := NULL;
  jd_prepare := fun _ pool _ => wide_prepare pool;
  jd_decomp := fun jd _ => toy_strip (Z.to_nat (width jd)) 0 (height jd) (priv jd)
|}.

(** The header of an image 2048 pixels wide and 16 high. *)
Definition files : list (string * file) :=
  [ ("wide.jpg"%string,
     {| f_data := [Byte.x08; Byte.x00; Byte.x00; Byte.x10];
        f_seekable := true |}) ].

(** Start-up and the metadata query of "wide.jpg", with LVGL 7's types and
    the scale divisor 1. *)
Definition booted : world := state_of (boot files) (lv_tjpgd_init (boot files)).
Definition info_run : option (lv_res_t * lv_img_header_t * world) :=
  decoder_info (SrcFile "wide.jpg") header0 booted.

End Wide.

(** * Properties *)

(** ** Memory: what a copy leaves behind *)

Lemma load_length p n hp cs :
  load p n hp = Some cs -> length cs = Z.to_nat n.
Proof.
  unfold load. destruct p as [[b o]|]; [|discriminate].
  destruct (hp !! b) as [[blk|]|]; try discriminate.
  destruct ((0 <=? o) && (0 <=? n) && (o + n <=? Z.of_nat (length blk))) eqn:E;
    [|discriminate].
  intros [= <-].
  apply andb_prop in E as [E E3]. apply andb_prop in E as [E1 E2].
  rewrite length_take, length_drop. lia.
Qed.

Lemma load_store_same p data hp hp' :
  store p data hp = Some hp' ->
  load p (Z.of_nat (length data)) hp' = Some data.
Proof.
  unfold store, load. destruct p as [[b o]|]; [|discriminate].
  destruct (hp !! b) as [[blk|]|] eqn:Eb; try discriminate.
  destruct ((0 <=? o) && (o + Z.of_nat (length data) <=? Z.of_nat (length blk)))
    eqn:E; [|discriminate].
  intros [= <-].
  apply andb_prop in E as [E1 E2]. apply Z.leb_le in E1, E2.
  rewrite list_lookup_insert_eq by (eapply lookup_lt_Some; eassumption).
  assert (Ho : length (take (Z.to_nat o) blk) = Z.to_nat o)
    by (rewrite length_take; lia).
  rewrite !length_app, length_drop, Ho.
  assert (Hin : (0 <=? o) && (0 <=? Z.of_nat (length data)) &&
           (o + Z.of_nat (length data) <=?
            Z.of_nat (Z.to_nat o + (length data
              + (length blk - (Z.to_nat o + length data))))) = true).
  { rewrite !andb_true_iff, !Z.leb_le. lia. }
  rewrite Hin.
  f_equal.
  rewrite drop_app_length' by (symmetry; exact Ho).
  rewrite Nat2Z.id. apply take_app_length.
Qed.

Lemma store_live p data hp hp' b :
  store p data hp = Some hp' -> live b hp' = live b hp.
Proof.
  unfold store. destruct p as [[b0 o]|]; [|discriminate].
  destruct (hp !! b0) as [[blk|]|] eqn:Eb; try discriminate.
  case_match; [|discriminate]. intros [= <-]. unfold live.
  destruct (decide (b0 = b)) as [->|Hne].
  - rewrite list_lookup_insert_eq by (eapply lookup_lt_Some; eassumption).
    now rewrite Eb.
  - now rewrite list_lookup_insert_ne.
Qed.

Lemma store_heap_length p data hp hp' :
  store p data hp = Some hp' -> length hp' = length hp.
Proof.
  unfold store. destruct p as [[b0 o]|]; [|discriminate].
  destruct (hp !! b0) as [[blk|]|]; try discriminate.
  case_match; [|discriminate]. intros [= <-]. apply length_insert.
Qed.

(** A copy puts at the destination what was at the source. *)
Lemma memcpy_copies dst sp n hp hp' :
  memcpy dst sp n hp = Some hp' ->
  exists data, load sp n hp = Some data /\ load dst n hp' = Some data.
Proof.
  unfold memcpy. destruct (overlap dst sp n); [discriminate|].
  destruct (load sp n hp) as [data|] eqn:El; [|discriminate].
  intros Hs. exists data. split; [reflexivity|].
  pose proof (load_length _ _ _ _ El) as Hlen.
  pose proof (load_store_same _ _ _ _ Hs) as Hl.
  assert (Hn : 0 <= n).
  { unfold load in El. destruct sp as [[b o]|]; [|discriminate].
    destruct (hp !! b) as [[blk|]|]; try discriminate.
    destruct ((0 <=? o) && (0 <=? n) && (o + n <=? Z.of_nat (length blk))) eqn:E;
      [|discriminate].
    apply andb_prop in E as [E _]. apply andb_prop in E as [_ E]. lia. }
  rewrite Hlen, Z2Nat.id in Hl by exact Hn. exact Hl.
Qed.

Lemma memcpy_live dst sp n hp hp' b :
  memcpy dst sp n hp = Some hp' -> live b hp' = live b hp.
Proof.
  unfold memcpy. destruct (overlap dst sp n); [discriminate|].
  destruct (load sp n hp); [|discriminate]. apply store_live.
Qed.

Lemma memcpy_heap_length dst sp n hp hp' :
  memcpy dst sp n hp = Some hp' -> length hp' = length hp.
Proof.
  unfold memcpy. destruct (overlap dst sp n); [discriminate|].
  destruct (load sp n hp); [|discriminate]. apply store_heap_length.
Qed.

(** ** The engine and the callbacks leave the resources alone *)

Lemma same_resources_refl d : same_resources d d.
Proof. unfold same_resources. repeat split; reflexivity. Qed.

Lemma same_resources_trans d1 d2 d3 :
  same_resources d1 d2 -> same_resources d2 d3 -> same_resources d1 d3.
Proof.
  unfold same_resources.
  intros (A1 & A2 & A3 & A4 & A5 & A6 & A7 & A8 & A9 & A10 & A11)
         (B1 & B2 & B3 & B4 & B5 & B6 & B7 & B8 & B9 & B10 & B11).
  repeat split; congruence.
Qed.

Lemma same_resources_heap d hp :
  length hp = length (e_heap (d_env d)) ->
  (forall b, live b hp = live b (e_heap (d_env d))) ->
  same_resources d {| d_ctx := d_ctx d; d_env := with_heap hp (d_env d) |}.
Proof. intros Hlen Hlive. unfold same_resources. cbn. repeat split; auto. Qed.

Lemma is_open_put_stream f i s0 s e :
  get_stream (Some i) e = Some s0 ->
  is_open f (put_stream (Some i) s e) = is_open f e.
Proof.
  unfold is_open, get_stream, put_stream. cbn. intros Hi.
  destruct f as [j|]; [|reflexivity].
  destruct (e_streams e !! i) as [[s1|]|] eqn:Ei; try discriminate.
  destruct (decide (i = j)) as [<-|Hne].
  - rewrite list_lookup_insert_eq by (eapply lookup_lt_Some; eassumption).
    now rewrite Ei.
  - now rewrite list_lookup_insert_ne.
Qed.

Lemma fread_resources buff n f e k e' :
  fread buff n f e = Some (k, e') ->
  length (e_heap e') = length (e_heap e) /\
  (forall b, live b (e_heap e') = live b (e_heap e)) /\
  e_fs e' = e_fs e /\
  length (e_streams e') = length (e_streams e) /\
  (forall g, is_open g e' = is_open g e).
Proof.
  unfold fread. destruct (get_stream f e) as [s|] eqn:Es; [|discriminate].
  destruct (store _ _ _) as [hp|] eqn:Est; [|discriminate].
  intros [= <- <-].
  destruct f as [i|]; [|discriminate].
  split; [cbn; eapply store_heap_length; eassumption|].
  split; [intros b; cbn; eapply store_live; eassumption|].
  split; [reflexivity|].
  split; [cbn; apply length_insert|].
  intros g. rewrite (is_open_put_stream g i s) by exact Es. reflexivity.
Qed.

Lemma fseek_cur_resources f off e r e' :
  fseek_cur f off e = Some (r, e') ->
  e_heap e' = e_heap e /\
  e_fs e' = e_fs e /\
  length (e_streams e') = length (e_streams e) /\
  (forall g, is_open g e' = is_open g e).
Proof.
  unfold fseek_cur. destruct (get_stream f e) as [s|] eqn:Es; [|discriminate].
  destruct (s_seekable s && (0 <=? s_pos s + off)); intros [= <- <-].
  - destruct f as [i|]; [|discriminate].
    split; [reflexivity|]. split; [reflexivity|].
    split; [cbn; apply length_insert|].
    intros g. now rewrite (is_open_put_stream g i s) by exact Es.
  - repeat split.
Qed.

Section Frame.
Context `{Tjpgd} `{LvTjpgdConf} `{Lvgl}.

Lemma on_feed_decoder_cb_resources jd buff n d r d' :
  on_feed_decoder_cb jd buff n d = Some (r, d') -> same_resources d d'.
Proof.
  unfold on_feed_decoder_cb. destruct jd; [discriminate|]. run_monad. cbn.
  destruct buff as [p|]; cbn.
  - destruct (fread _ _ _ _) as [[k e']|] eqn:Ef; [|discriminate].
    intros [= <- <-].
    destruct (fread_resources _ _ _ _ _ _ Ef) as (? & ? & ? & ? & ?).
    unfold same_resources. cbn. repeat split; assumption.
  - destruct (fseek_cur _ _ _) as [[k e']|] eqn:Ef; [|discriminate].
    intros [= <- <-].
    destruct (fseek_cur_resources _ _ _ _ _ Ef) as (Hh & ? & ? & ?).
    unfold same_resources. cbn. rewrite Hh. repeat split; assumption.
Qed.

Lemma copy_lines_resources fuel : forall y bot sp dp bws bwd d u d',
  copy_lines fuel y bot sp dp bws bwd d = Some (u, d') -> same_resources d d'.
Proof.
  induction fuel as [|fuel IH]; intros y bot sp dp bws bwd d u d'; cbn.
  - discriminate.
  - destruct (y <=? bot).
    + run_monad.
      destruct (memcpy dp sp bws (e_heap (d_env d))) as [hp|] eqn:Hcp;
        [|discriminate].
      intros Hrest. apply IH in Hrest.
      eapply same_resources_trans; [|exact Hrest].
      apply same_resources_heap.
      * eapply memcpy_heap_length; eassumption.
      * intros b. eapply memcpy_live; eassumption.
    + intros [= <- <-]. apply same_resources_refl.
Qed.

Lemma on_decoder_line_output_cb_resources jd bitmap rect d r d' :
  on_decoder_line_output_cb jd bitmap rect d = Some (r, d') ->
  same_resources d d'.
Proof.
  unfold on_decoder_line_output_cb. destruct jd; [discriminate|]. run_monad.
  cbn.
  destruct (copy_lines _ _ _ _ _ _ _ _) as [[u d1]|] eqn:Hloop; [|discriminate].
  intros [= <- <-]. apply copy_lines_resources in Hloop.
  unfold same_resources in *. cbn in Hloop. exact Hloop.
Qed.

Lemma run_engine_resources {R} infunc outfunc jd (e : engine R) :
  file_infunc infunc -> file_outfunc outfunc ->
  forall d r d',
    run_engine infunc outfunc jd e d = Some (r, d') -> same_resources d d'.
Proof.
  intros Hin Hout.
  induction e as [r0|buff nbyte k IH|bitmap rect k IH|p n k IH|p cs k IH];
    intros d r d'; cbn [run_engine].
  - intros [= <- <-]. apply same_resources_refl.
  - destruct Hin as [->| ->]; [discriminate|].
    destruct (on_feed_decoder_cb jd buff nbyte d) as [[m d1]|] eqn:Hcb;
      [|discriminate].
    intros Hrest. eapply same_resources_trans.
    + eapply on_feed_decoder_cb_resources; eassumption.
    + eapply IH; eassumption.
  - destruct Hout as [->| ->]; [discriminate|].
    destruct (on_decoder_line_output_cb jd bitmap rect d) as [[m d1]|] eqn:Hcb;
      [|discriminate].
    intros Hrest. eapply same_resources_trans.
    + eapply on_decoder_line_output_cb_resources; eassumption.
    + eapply IH; eassumption.
  - destruct (load p n (e_heap (d_env d))); [|discriminate]. apply IH.
  - destruct (store p cs (e_heap (d_env d))) as [hp|] eqn:Hst; [|discriminate].
    intros Hrest. eapply same_resources_trans; [|eapply IH; eassumption].
    apply same_resources_heap.
    + eapply store_heap_length; eassumption.
    + intros b. eapply store_live; eassumption.
Qed.

End Frame.

(** ** The two callbacks *)

Lemma ptr_add_0 p : ptr_add p 0 = p.
Proof. destruct p as [[b o]|]; [|reflexivity]. cbn. now rewrite Z.add_0_r. Qed.

Lemma ptr_add_add p a b : ptr_add (ptr_add p a) b = ptr_add p (a + b).
Proof. destruct p as [[blk o]|]; [|reflexivity]. cbn. now rewrite Z.add_assoc. Qed.

Lemma uint16_small v : 0 <= v < 65536 -> uint16 v = v.
Proof. intros Hv. unfold uint16, wrap. now apply Z.mod_small. Qed.

Lemma get_put_stream i s0 s e :
  get_stream (Some i) e = Some s0 ->
  get_stream (Some i) (put_stream (Some i) s e) = Some s.
Proof.
  unfold get_stream, put_stream. cbn. intros Hi.
  destruct (e_streams e !! i) as [[s1|]|] eqn:Ei; try discriminate.
  now rewrite list_lookup_insert_eq by (eapply lookup_lt_Some; eassumption).
Qed.

Lemma readable_length n s :
  0 <= n -> 0 <= s_pos s ->
  Z.of_nat (length (readable n s))
  = Z.min n (Z.max 0 (Z.of_nat (length (s_data s)) - s_pos s)).
Proof. intros Hn Hp. unfold readable. rewrite length_take, length_drop. lia. Qed.

Section Callbacks.
Context `{Tjpgd} `{LvTjpgdConf} `{Lvgl}.

(** C7.  The feed callback, on an open stream.  With a buffer it stores in
    it the next bytes of the stream, [nbyte] of them or as many as are left,
    moves the stream on by that count and returns the count.  Without a
    buffer it moves the stream on by [nbyte] and returns [nbyte] when the
    stream can seek, and returns 0 and leaves the stream where it is when
    it cannot. *)
Theorem on_feed_decoder_cb_contract d buff nbyte i st :
  fp (d_ctx d) = Some i ->
  get_stream (Some i) (d_env d) = Some st ->
  0 <= s_pos st ->
  0 <= nbyte < 65536 ->
  let moved k := {| s_data := s_data st; s_pos := s_pos st + k;
                    s_seekable := s_seekable st |} in
  let data := readable nbyte st in
  let got := Z.of_nat (length data) in
  (forall p hp,
      buff = Some p ->
      store buff (map Some data) (e_heap (d_env d)) = Some hp ->
      exists d',
        on_feed_decoder_cb DevUserCtx buff nbyte d = Some (got, d') /\
        got = Z.min nbyte (Z.max 0 (Z.of_nat (length (s_data st)) - s_pos st)) /\
        load buff got (e_heap (d_env d')) = Some (map Some data) /\
        get_stream (Some i) (d_env d') = Some (moved got)) /\
  (buff = NULL ->
   s_seekable st = true ->
   exists d',
     on_feed_decoder_cb DevUserCtx buff nbyte d = Some (nbyte, d') /\
     get_stream (Some i) (d_env d') = Some (moved nbyte) /\
     e_heap (d_env d') = e_heap (d_env d)) /\
  (buff = NULL ->
   s_seekable st = false ->
   exists d',
     on_feed_decoder_cb DevUserCtx buff nbyte d = Some (0, d') /\
     d_env d' = d_env d).
Proof.
  intros Hfp Hst Hpos Hn moved data got.
  assert (Hgot : got = Z.min nbyte
                         (Z.max 0 (Z.of_nat (length (s_data st)) - s_pos st)))
    by (apply readable_length; lia).
  unfold on_feed_decoder_cb. run_monad. world_simpl. rewrite Hfp.
  split; [|split].
  - intros p hp -> Hstore. cbn [is_null]. unfold fread. world_simpl. rewrite Hst.
    fold data got. rewrite Hstore.
    eexists. split; [rewrite uint16_small by lia; reflexivity|].
    split; [exact Hgot|]. world_simpl. split.
    + pose proof (load_store_same _ _ _ _ Hstore) as Hl.
      rewrite length_map in Hl. exact Hl.
    + now apply get_put_stream with (s0 := st).
  - intros -> Hseek. unfold NULL. cbn [is_null]. unfold fseek_cur. world_simpl.
    rewrite Hst.
    assert (Hok : s_seekable st && (0 <=? s_pos st + nbyte) = true)
      by (rewrite Hseek; apply Z.leb_le; lia).
    rewrite Hok. eexists. split; [reflexivity|]. world_simpl.
    split; [now apply get_put_stream with (s0 := st)|reflexivity].
  - intros -> Hseek. unfold NULL. cbn [is_null]. unfold fseek_cur. world_simpl.
    rewrite Hst.
    assert (Hko : s_seekable st && (0 <=? s_pos st + nbyte) = false)
      by (now rewrite Hseek).
    rewrite Hko. eexists. split; [reflexivity|reflexivity].
Qed.

(** The loop of the row copy, run with enough fuel, is the row-by-row copy
    at offsets [j * bws] and [j * bwd]. *)
Lemma copy_lines_rows n : forall fuel y bot k sp dp bws bwd d,
  0 <= y -> bot < 65535 ->
  n = Z.to_nat (bot - y + 1) ->
  (n < fuel)%nat ->
  copy_lines fuel y bot (ptr_add sp (k * bws)) (ptr_add dp (k * bwd)) bws bwd d
  = match copy_rows n k sp dp bws bwd (e_heap (d_env d)) with
    | Some hp => Some (tt, {| d_ctx := d_ctx d; d_env := with_heap hp (d_env d) |})
    | None => None
    end.
Proof.
  induction n as [|n IH]; intros fuel y bot k sp dp bws bwd d Hy Hbot Hn Hfuel;
    (destruct fuel as [|fuel]; [lia|]); cbn [copy_lines copy_rows].
  - replace (y <=? bot) with false by (symmetry; apply Z.leb_gt; lia).
    destruct d as [c [hp fs ss]]. reflexivity.
  - replace (y <=? bot) with true by (symmetry; apply Z.leb_le; lia).
    run_monad.
    destruct (memcpy (ptr_add dp (k * bwd)) (ptr_add sp (k * bws)) bws
                (e_heap (d_env d))) as [hp|]; [|reflexivity].
    rewrite uint16_small by lia. rewrite !ptr_add_add.
    replace (k * bws + bws) with ((k + 1) * bws) by ring.
    replace (k * bwd + bwd) with ((k + 1) * bwd) by ring.
    rewrite IH by (world_simpl; lia). world_simpl. reflexivity.
Qed.

(** With [bottom = 65535] the condition of the loop holds for every value
    the [uint16_t] counter can take: the loop is not left, whatever the
    fuel, and the callback returns nothing. *)
Lemma copy_lines_no_exit fuel : forall y sp dp bws bwd d,
  0 <= y <= 65535 ->
  copy_lines fuel y 65535 sp dp bws bwd d = None.
Proof.
  induction fuel as [|fuel IH]; intros y sp dp bws bwd d Hy;
    cbn [copy_lines]; [reflexivity|].
  replace (y <=? 65535) with true by (symmetry; apply Z.leb_le; lia).
  run_monad. unfold on_heap.
  destruct (memcpy dp sp bws (e_heap (d_env d))) as [hp|]; [|reflexivity].
  apply IH. unfold uint16, wrap.
  pose proof (Z.mod_pos_bound (y + 1) (2 ^ 16) eq_refl). lia.
Qed.

Lemma on_decoder_line_output_cb_no_exit bitmap rect d :
  0 <= top rect <= 65535 -> bottom rect = 65535 ->
  on_decoder_line_output_cb DevUserCtx bitmap rect d = None.
Proof.
  intros Htop Hbot. unfold on_decoder_line_output_cb. run_monad. world_simpl.
  rewrite Hbot, copy_lines_no_exit by exact Htop. reflexivity.
Qed.

(** The row copy within 16 bits.  For a rectangle whose [bottom] is below
    65535 the row-copy callback copies the rows [top] to [bottom], one after the
    other, from the bitmap to the frame buffer at
    [BYTES_ON_PIXEL * (top * frame_buffer_width + left)], with a row width
    and a destination stride that are the products
    [BYTES_ON_PIXEL * (right - left + 1)] and
    [BYTES_ON_PIXEL * frame_buffer_width] reduced to 16 bits (the products
    themselves when they fit), and returns 1. *)
Theorem on_decoder_line_output_cb_rows bitmap rect d :
  0 <= top rect -> bottom rect < 65535 ->
  let rw := BYTES_ON_PIXEL * (right rect - left rect + 1) in
  let stride := BYTES_ON_PIXEL * frame_buffer_width (d_ctx d) in
  on_decoder_line_output_cb DevUserCtx bitmap rect d
  = row_copy (uint16 rw) (uint16 stride) bitmap rect d /\
  (0 <= rw < 65536 -> 0 <= stride < 65536 ->
   on_decoder_line_output_cb DevUserCtx bitmap rect d
   = row_copy_as_stated bitmap rect d) /\
  (forall r d', on_decoder_line_output_cb DevUserCtx bitmap rect d = Some (r, d')
                -> r = 1).
Proof.
  intros Htop Hbot rw stride.
  assert (Hcode : on_decoder_line_output_cb DevUserCtx bitmap rect d
                  = row_copy (uint16 rw) (uint16 stride) bitmap rect d).
  { unfold on_decoder_line_output_cb, row_copy. run_monad. world_simpl.
    fold rw stride.
    rewrite <- (ptr_add_0 bitmap) at 1.
    rewrite <- (ptr_add_0 (ptr_add (frame_buffer (d_ctx d)) _)) at 1.
    replace 0 with (0 * uint16 rw) at 1 by reflexivity.
    replace 0 with (0 * uint16 stride) at 2 by reflexivity.
    rewrite (copy_lines_rows (Z.to_nat (bottom rect - top rect + 1)))
      by (try reflexivity; try lia; unfold loop_fuel; lia).
    world_simpl.
    destruct (copy_rows _ _ _ _ _ _ _) as [hp|]; [|reflexivity].
    destruct rect. reflexivity. }
  split; [exact Hcode|]. split.
  - intros Hrw Hstride. rewrite Hcode. unfold row_copy_as_stated.
    rewrite !uint16_small by assumption. fold rw stride.
    now rewrite (Z.mul_comm (right rect - left rect + 1)),
                (Z.mul_comm (frame_buffer_width (d_ctx d))).
  - intros r d'. rewrite Hcode. unfold row_copy.
    destruct (copy_rows _ _ _ _ _ _ _); [|discriminate]. now intros [= <- _].
Qed.

End Callbacks.

(** ** More on memory and on the callbacks *)

Lemma store_block_size p data hp hp' b :
  store p data hp = Some hp' -> block_size b hp' = block_size b hp.
Proof.
  unfold store. destruct p as [[b0 o]|]; [|discriminate].
  destruct (hp !! b0) as [[blk|]|] eqn:Eb; try discriminate.
  destruct ((0 <=? o) && (o + Z.of_nat (length data) <=? Z.of_nat (length blk)))
    eqn:E; [|discriminate].
  apply andb_prop in E as [E1 E2]. apply Z.leb_le in E1, E2.
  intros [= <-]. unfold block_size.
  destruct (decide (b0 = b)) as [->|Hne].
  - rewrite list_lookup_insert_eq by (eapply lookup_lt_Some; eassumption).
    rewrite Eb. f_equal.
    rewrite !length_app, length_take, length_drop. lia.
  - now rewrite list_lookup_insert_ne.
Qed.

Lemma memcpy_block_size dst sp n hp hp' b :
  memcpy dst sp n hp = Some hp' -> block_size b hp' = block_size b hp.
Proof.
  unfold memcpy. destruct (overlap dst sp n); [discriminate|].
  destruct (load sp n hp); [|discriminate]. apply store_block_size.
Qed.

(** A copy between two distinct blocks is defined when both areas lie
    inside their blocks. *)
Lemma memcpy_defined bd od bs os n hp nd ns :
  bd <> bs ->
  block_size bd hp = Some nd -> block_size bs hp = Some ns ->
  0 <= n -> 0 <= os -> os + n <= ns -> 0 <= od -> od + n <= nd ->
  exists hp', memcpy (Some (bd, od)) (Some (bs, os)) n hp = Some hp'.
Proof.
  intros Hne Hd Hs Hn Hos Hsn Hod Hdn. unfold memcpy, overlap.
  replace (Nat.eqb bd bs) with false by (symmetry; now apply Nat.eqb_neq).
  cbn [andb]. unfold block_size in Hd, Hs.
  destruct (hp !! bs) as [[cs|]|] eqn:Es; try discriminate.
  destruct (hp !! bd) as [[cd|]|] eqn:Ed; try discriminate.
  injection Hd as <-. injection Hs as <-.
  unfold load. rewrite Es.
  assert (Hin : (0 <=? os) && (0 <=? n) && (os + n <=? Z.of_nat (length cs)) = true)
    by (rewrite !andb_true_iff, !Z.leb_le; lia).
  rewrite Hin. unfold store. rewrite Ed.
  rewrite length_take, length_drop.
  assert (Hout : (0 <=? od) &&
                 (od + Z.of_nat (Z.to_nat n `min` (length cs - Z.to_nat os))
                  <=? Z.of_nat (length cd)) = true)
    by (rewrite !andb_true_iff, !Z.leb_le; lia).
  rewrite Hout. eexists. reflexivity.
Qed.

Section MoreCallbacks.
Context `{Tjpgd} `{LvTjpgdConf} `{Lvgl}.

(** The rows of a copy all fit: the copy is defined and keeps the sizes of
    the blocks. *)
Lemma copy_rows_defined bd od bs os rw stride nd ns n : forall k hp,
  bd <> bs ->
  block_size bd hp = Some nd -> block_size bs hp = Some ns ->
  0 <= k -> 0 <= rw -> 0 <= stride -> 0 <= os -> 0 <= od ->
  os + (k + Z.of_nat n) * rw <= ns ->
  (n <> 0%nat -> od + (k + Z.of_nat n - 1) * stride + rw <= nd) ->
  exists hp',
    copy_rows n k (Some (bs, os)) (Some (bd, od)) rw stride hp = Some hp' /\
    forall b, block_size b hp' = block_size b hp.
Proof.
  induction n as [|n IH]; intros k hp Hne Hd Hs Hk Hrw Hst Hos Hod Hsrc Hdst;
    cbn [copy_rows].
  - eexists. split; [reflexivity|auto].
  - cbn [ptr_add].
    destruct (memcpy_defined bd (od + k * stride) bs (os + k * rw) rw hp nd ns)
      as [hp1 Hcp]; try assumption; try nia.
    rewrite Hcp.
    assert (Hd1 : block_size bd hp1 = Some nd)
      by (now rewrite (memcpy_block_size _ _ _ _ _ bd Hcp)).
    assert (Hs1 : block_size bs hp1 = Some ns)
      by (now rewrite (memcpy_block_size _ _ _ _ _ bs Hcp)).
    assert (Hsrc1 : os + (k + 1 + Z.of_nat n) * rw <= ns) by nia.
    assert (Hdst1 : n <> 0%nat ->
                    od + (k + 1 + Z.of_nat n - 1) * stride + rw <= nd).
    { intros _. specialize (Hdst ltac:(discriminate)). nia. }
    destruct (IH (k + 1) hp1 Hne Hd1 Hs1 ltac:(lia) Hrw Hst Hos Hod Hsrc1 Hdst1)
      as (hp' & Hrows & Hsz).
    exists hp'. split; [exact Hrows|].
    intros b. rewrite Hsz. eapply memcpy_block_size; eassumption.
Qed.

(** The row-copy callback as a row-by-row copy, for a rectangle whose
    [bottom] is below 65535. *)
Lemma on_decoder_line_output_cb_row_copy bitmap rect d :
  0 <= top rect -> bottom rect < 65535 ->
  on_decoder_line_output_cb DevUserCtx bitmap rect d
  = row_copy (uint16 (BYTES_ON_PIXEL * (right rect - left rect + 1)))
             (uint16 (BYTES_ON_PIXEL * frame_buffer_width (d_ctx d)))
             bitmap rect d.
Proof.
  intros Htop Hbot.
  unfold on_decoder_line_output_cb, row_copy. run_monad. world_simpl.
  rewrite <- (ptr_add_0 bitmap) at 1.
  rewrite <- (ptr_add_0 (ptr_add (frame_buffer (d_ctx d)) _)) at 1.
  replace 0 with (0 * uint16 (BYTES_ON_PIXEL * (right rect - left rect + 1)))
    at 1 by reflexivity.
  replace 0 with (0 * uint16 (BYTES_ON_PIXEL * frame_buffer_width (d_ctx d)))
    at 2 by reflexivity.
  rewrite (copy_lines_rows (Z.to_nat (bottom rect - top rect + 1)))
    by (try reflexivity; try lia; unfold loop_fuel; lia).
  world_simpl.
  destruct (copy_rows _ _ _ _ _ _ _) as [hp|]; [|reflexivity].
  destruct rect. reflexivity.
Qed.

(** X1.  The row copy stays inside the frame buffer.  For a rectangle that
    lies inside the lines the frame buffer holds ([left <= right] below the
    frame-buffer width, [top <= bottom < 65535], the lines 0 to [bottom]
    inside the buffer), with a line of the frame buffer shorter than 65536 bytes and a
    bitmap that holds the rectangle, the callback is defined, returns 1,
    and changes the size of no block. *)
Theorem row_copy_in_bounds bitmap_block bitmap_off fb rect d nf nb :
  let c := d_ctx d in
  let W := frame_buffer_width c in
  frame_buffer c = Some (fb, 0) ->
  fb <> bitmap_block ->
  block_size fb (e_heap (d_env d)) = Some nf ->
  block_size bitmap_block (e_heap (d_env d)) = Some nb ->
  0 < BYTES_ON_PIXEL ->
  BYTES_ON_PIXEL * W < 65536 ->
  0 <= left rect <= right rect -> right rect < W ->
  0 <= top rect <= bottom rect -> bottom rect < 65535 ->
  BYTES_ON_PIXEL * W * (bottom rect + 1) <= nf ->
  0 <= bitmap_off ->
  bitmap_off + (bottom rect - top rect + 1)
               * (BYTES_ON_PIXEL * (right rect - left rect + 1)) <= nb ->
  exists d',
    on_decoder_line_output_cb DevUserCtx (Some (bitmap_block, bitmap_off)) rect d
    = Some (1, d') /\
    forall b, block_size b (e_heap (d_env d')) = block_size b (e_heap (d_env d)).
Proof.
  intros c W Hfb Hne Hnf Hnb Hbpp Hline Hlr Hrw Htb Hbot Hfit Hoff Hbit.
  assert (Hnf0 : 0 <= nf).
  { unfold block_size in Hnf.
    destruct (e_heap (d_env d) !! fb) as [[cs|]|]; try discriminate.
    injection Hnf as <-. lia. }
  rewrite on_decoder_line_output_cb_row_copy by lia.
  fold c W. unfold row_copy. fold c W. rewrite Hfb. cbn [ptr_add].
  rewrite !uint16_small by nia.
  destruct (copy_rows_defined fb
              (0 + BYTES_ON_PIXEL * (top rect * W + left rect))
              bitmap_block bitmap_off
              (BYTES_ON_PIXEL * (right rect - left rect + 1))
              (BYTES_ON_PIXEL * W) nf nb
              (Z.to_nat (bottom rect - top rect + 1)) 0 (e_heap (d_env d)))
    as (hp & Hrows & Hsz); try assumption; try nia.
  rewrite Hrows. eexists. split; [reflexivity|]. exact Hsz.
Qed.

(** The loop of the row copy works on memory alone: the device object is
    handed through. *)
Lemma copy_lines_ctx fuel : forall y bot sp dp bws bwd c c' e,
  copy_lines fuel y bot sp dp bws bwd {| d_ctx := c; d_env := e |}
  = match copy_lines fuel y bot sp dp bws bwd {| d_ctx := c'; d_env := e |} with
    | Some (u, d') => Some (u, {| d_ctx := c; d_env := d_env d' |})
    | None => None
    end.
Proof.
  induction fuel as [|fuel IH]; intros y bot sp dp bws bwd c c' e;
    cbn [copy_lines]; [reflexivity|].
  destruct (y <=? bot); [|reflexivity].
  run_monad. world_simpl.
  destruct (memcpy dp sp bws (e_heap e)) as [hp|]; [|reflexivity].
  apply IH.
Qed.

(** X2.  The two output callbacks copy alike: on every input
    [on_decoder_line_output_cb] is defined exactly when
    [on_decoder_output_cb] is, returns the same value and leaves the same
    memory and the same device object, but for the rectangle, which only
    the line variant records in [last_decoded_coord]. *)
Theorem output_callbacks_agree jd bitmap rect d :
  on_decoder_line_output_cb jd bitmap rect d
  = option_map (with_rect rect) (on_decoder_output_cb jd bitmap rect d).
Proof.
  destruct jd; [reflexivity|].
  unfold on_decoder_line_output_cb, on_decoder_output_cb, with_rect.
  run_monad. world_simpl.
  match goal with
  | |- context [copy_lines ?f ?y ?b ?sp ?dp ?bws ?bwd
                  {| d_ctx := ?c1; d_env := ?e |}] =>
      match goal with
      | |- context [option_map _
                      match copy_lines f y b sp dp bws bwd
                              {| d_ctx := ?c2; d_env := e |} with _ => _ end] =>
          rewrite (copy_lines_ctx f y b sp dp bws bwd c1 c2 e);
          pose proof (copy_lines_ctx f y b sp dp bws bwd c2 c2 e) as Hself;
          destruct (copy_lines f y b sp dp bws bwd {| d_ctx := c2; d_env := e |})
            as [[u d']|]; [|reflexivity]
      end
  end.
  injection Hself as Hd. rewrite Hd. cbn [option_map fst snd d_ctx d_env].
  destruct rect. reflexivity.
Qed.

(** X3.  The feed callback counts what was asked for, not what was
    delivered: whenever it returns, [fp_consumed_bytes] has grown by
    [nbyte] (as an [int32_t]), while the value returned lies between 0 and
    [nbyte]; it is the only field of the device object the callback
    changes. *)
Theorem on_feed_decoder_cb_counts_requests jd buff nbyte d r d' :
  0 <= nbyte < 65536 ->
  on_feed_decoder_cb jd buff nbyte d = Some (r, d') ->
  0 <= r <= nbyte /\
  d_ctx d' = set_fp_consumed_bytes
               (int32 (fp_consumed_bytes (d_ctx d) + nbyte)) (d_ctx d).
Proof.
  intros Hn. unfold on_feed_decoder_cb. destruct jd; [discriminate|].
  run_monad. cbn [d_ctx d_env].
  destruct buff as [p|]; cbn [is_null].
  - unfold fread.
    destruct (get_stream _ _) as [st|]; [|discriminate].
    destruct (store _ _ _) as [hp|]; [|discriminate].
    intros [= <- <-]. cbn [d_ctx].
    assert (Hk : 0 <= Z.of_nat (length (readable nbyte st)) <= nbyte)
      by (unfold readable; rewrite length_take; lia).
    rewrite uint16_small by lia. split; [exact Hk|reflexivity].
  - unfold fseek_cur.
    destruct (get_stream _ _) as [st|]; [|discriminate].
    destruct (s_seekable st && (0 <=? s_pos st + nbyte));
      intros [= <- <-]; cbn [d_ctx]; (split; [cbn; lia|reflexivity]).
Qed.

(** X4.  Whatever the engine does in a run, with the callbacks of this file
    it allocates and frees no block, opens and closes no stream, leaves the
    file system alone and keeps the pointers and sizes of the device object
    ([fp], [work], [frame_buffer], [lvgl_feeder_ptr], [size],
    [frame_buffer_width]). *)
Theorem engine_run_keeps_resources {R} jd (e : engine R) d r d' :
  run_engine (Some on_feed_decoder_cb) (Some on_decoder_line_output_cb) jd e d
  = Some (r, d') ->
  same_resources d d'.
Proof. apply run_engine_resources; now right. Qed.

End MoreCallbacks.

(** ** The test of the file name *)

Lemma string_length_append p s :
  String.length (String.append p s) = (String.length p + String.length s)%nat.
Proof. induction p as [|c p IH]; cbn; [reflexivity|now rewrite IH]. Qed.

Lemma substring_append_skip p s m :
  String.substring (String.length p) m (String.append p s)
  = String.substring 0 m s.
Proof. induction p as [|c p IH]; cbn; [reflexivity|exact IH]. Qed.

Lemma substring_whole s : String.substring 0 (String.length s) s = s.
Proof. induction s as [|c s IH]; cbn; [reflexivity|now rewrite IH]. Qed.

Lemma string_split_at : forall s n,
  (n <= String.length s)%nat ->
  s = String.append (String.substring 0 n s)
                    (String.substring n (String.length s - n) s).
Proof.
  induction s as [|c s IH]; intros n Hn.
  - destruct n; reflexivity.
  - destruct n as [|n].
    + cbn [String.substring String.append String.length Nat.sub].
      now rewrite substring_whole.
    + cbn [String.substring String.append String.length Nat.sub].
      f_equal. apply IH. cbn in Hn. lia.
Qed.

(** X17.  The test of the file name looks at the last three characters and
    at nothing else: a name is taken for a JPG exactly when it is some
    text, possibly empty and with or without a dot, followed by the three
    lower-case letters "jpg"; and the test has no defined behaviour exactly
    for the names of fewer than three characters. *)
Theorem has_valid_extension_spec fn :
  (has_valid_extension fn = None <-> (String.length fn < 3)%nat) /\
  (has_valid_extension fn = Some true <->
   exists p, fn = String.append p "jpg").
Proof.
  unfold has_valid_extension, VALID_FILE_EXTENSION.
  destruct (String.length fn <? 3)%nat eqn:Hlen.
  - apply Nat.ltb_lt in Hlen. split.
    + split; [intros _; exact Hlen|reflexivity].
    + split; [discriminate|]. intros [p ->].
      rewrite string_length_append in Hlen. cbn in Hlen. lia.
  - apply Nat.ltb_ge in Hlen. split.
    + split; [discriminate|lia].
    + split.
      * intros [= Heq]. apply String.eqb_eq in Heq.
        exists (String.substring 0 (String.length fn - 3) fn).
        assert (Hle : (String.length fn - 3 <= String.length fn)%nat) by lia.
        pose proof (string_split_at fn (String.length fn - 3) Hle) as Hs.
        replace (String.length fn - (String.length fn - 3))%nat with 3%nat in Hs
          by lia.
        rewrite Heq in Hs. exact Hs.
      * intros [p ->]. f_equal. apply String.eqb_eq.
        rewrite string_length_append. cbn [String.length].
        replace (String.length p + 3 - 3)%nat with (String.length p) by lia.
        now rewrite substring_append_skip.
Qed.

(** ** The line reader *)

Section ReadLine.
Context `{Tjpgd} `{LvTjpgdConf} `{Lvgl}.

(** A call that finds a strip: the whole of its effect, as one equation. *)
Lemma decoder_read_hit dsc x y len buf (s : world) :
  buffered_data s = true ->
  decoder_read dsc x y len buf s =
  match memcpy buf (lvgl_feeder_ptr (user_ctx s)) (len * BYTES_ON_PIXEL)
          (e_heap (w_env s)) with
  | None => None
  | Some hp =>
      let c1 := set_lvgl_feeder_ptr
                  (ptr_add (lvgl_feeder_ptr (user_ctx s)) (len * BYTES_ON_PIXEL))
                  (user_ctx s) in
      if 7 <? bumped s then
        match free (frame_buffer (user_ctx s)) hp with
        | None => None
        | Some hp' =>
            Some (LV_RES_OK,
                  {| w_env := with_heap hp' (w_env s); jdec := jdec s;
                     user_ctx := set_frame_buffer NULL c1;
                     buffered_data := false; lines_sent := 0;
                     trace := trace s |})
        end
      else
        Some (LV_RES_OK,
              {| w_env := with_heap hp (w_env s); jdec := jdec s;
                 user_ctx := c1; buffered_data := true;
                 lines_sent := bumped s; trace := trace s |})
  end.
Proof.
  intros Hb. unfold decoder_read, bumped. run_monad. rewrite Hb.
  destruct (memcpy _ _ _ _) as [hp|]; [|reflexivity]. cbn.
  destruct (7 <? uint8 (lines_sent s + 1)); cbn.
  - destruct (free _ hp) as [hp'|]; reflexivity.
  - world_simpl. rewrite Hb. reflexivity.
Qed.

(** A call that finds no strip: it reports success, has asked the engine
    for one decompression of a session of height 8, and leaves a strip
    behind, whatever the engine answered. *)
Lemma decoder_read_miss dsc x y len buf (s s' : world) r :
  buffered_data s = false ->
  decoder_read dsc x y len buf s = Some (r, s') ->
  r = LV_RES_OK /\
  buffered_data s' = true /\
  lines_sent s' = bumped s /\
  exists res pv,
    trace s' = trace s ++ [EvDecomp 8 LV_TJPGD_SCALING_FACTOR; EvResult res] /\
    jdec s' = set_priv pv (set_height 8 (jdec s)).
Proof.
  intros Hb. unfold decoder_read, bumped. run_monad. rewrite Hb.
  unfold malloc. world_simpl.
  destruct (ftell _ _); [|discriminate]. world_simpl.
  destruct (run_engine _ _ _ _ _) as [[[res pv] d]|]; [|discriminate].
  world_simpl.
  destruct (memcpy _ _ _ _); [|discriminate]. world_simpl.
  destruct (ftell _ _); [|discriminate].
  intros [= <- <-]. world_simpl. repeat split.
  exists res, pv. rewrite <- app_assoc. split; reflexivity.
Qed.

(** The coordinates are no input of a line read. *)
Lemma decoder_read_ignores_xy dsc x1 y1 x2 y2 len buf (s : world) :
  decoder_read dsc x1 y1 len buf s = decoder_read dsc x2 y2 len buf s.
Proof. reflexivity. Qed.

(** Whatever path a call takes, it reports success. *)
Lemma decoder_read_ok dsc x y len buf (s s' : world) r :
  decoder_read dsc x y len buf s = Some (r, s') -> r = LV_RES_OK.
Proof.
  destruct (buffered_data s) eqn:Hb; intros Hrun.
  - rewrite decoder_read_hit in Hrun by exact Hb.
    repeat case_match; congruence.
  - now apply decoder_read_miss in Hrun.
Qed.

(** Two runs of line reads that agree on the lengths and the buffers go the
    same way, whatever rows and columns they ask for. *)
Lemma read_rows_same_lengths dsc calls1 : forall calls2 (s : world),
  map (fun a => (r_len a, r_buf a)) calls1
  = map (fun a => (r_len a, r_buf a)) calls2 ->
  read_rows dsc calls1 s = read_rows dsc calls2 s.
Proof.
  induction calls1 as [|a1 rest1 IH]; intros [|a2 rest2] s Hsame;
    try discriminate; [reflexivity|].
  cbn [map] in Hsame. injection Hsame as Hlen Hbuf Hrest.
  cbn [read_rows]. run_monad. rewrite Hlen, Hbuf.
  rewrite (decoder_read_ignores_xy dsc (r_x a1) (r_y a1) (r_x a2) (r_y a2)).
  destruct (decoder_read dsc (r_x a2) (r_y a2) (r_len a2) (r_buf a2) s)
    as [[r s1]|]; [|reflexivity].
  now rewrite (IH rest2 s1 Hrest).
Qed.

(** C9.  [decoder_read] never looks at [x] and [y]: two calls from the same
    state with the same [len] and buffer have the same result, write the
    same pixels and leave the same state, whatever the coordinates asked
    for; so have two runs of calls that agree on the lengths and buffers.
    No request is turned down: a call for another column or an earlier row
    is served from the cursor and reports success like any other. *)
Theorem decoder_read_ignores_coordinates dsc x1 y1 x2 y2 len buf (s : world) :
  decoder_read dsc x1 y1 len buf s = decoder_read dsc x2 y2 len buf s /\
  (forall r s', decoder_read dsc x1 y1 len buf s = Some (r, s') ->
                r = LV_RES_OK) /\
  (forall calls1 calls2,
      map (fun a => (r_len a, r_buf a)) calls1
      = map (fun a => (r_len a, r_buf a)) calls2 ->
      read_rows dsc calls1 s = read_rows dsc calls2 s).
Proof.
  split; [apply decoder_read_ignores_xy|]. split.
  - intros r s'. apply decoder_read_ok.
  - intros calls1 calls2. apply read_rows_same_lengths.
Qed.

Lemma decomp_count_app t1 t2 :
  decomp_count (t1 ++ t2) = (decomp_count t1 + decomp_count t2)%nat.
Proof. unfold decomp_count. now rewrite List.filter_app, length_app. Qed.


(** The two statics drive the calls: what a run of line reads asks of the
    engine depends on them alone. *)
Lemma read_rows_decomps dsc calls : forall (s s' : world) out,
  read_rows dsc calls s = Some (out, s') ->
  map snd out = expected_decomps (length calls) (buffered_data s) (lines_sent s) /\
  Forall (fun o => fst o = LV_RES_OK) out /\
  decomp_count (trace s') = (decomp_count (trace s) + list_sum (map snd out))%nat.
Proof.
  induction calls as [|a rest IH]; intros s s' out Hrun.
  - injection Hrun as <- <-. cbn. auto with arith.
  - cbn [read_rows] in Hrun. run_monad.
    destruct (decoder_read dsc (r_x a) (r_y a) (r_len a) (r_buf a) s)
      as [[r s1]|] eqn:Hcall; [|discriminate].
    destruct (read_rows dsc rest s1) as [[out1 s2]|] eqn:Hrest; [|discriminate].
    injection Hrun as <- <-.
    destruct (IH _ _ _ Hrest) as (Hd & Hok & Hn).
    pose proof (decoder_read_ok _ _ _ _ _ _ _ _ Hcall) as ->.
    assert (Hsum : forall k l, list_sum (k :: l) = (k + list_sum l)%nat)
      by reflexivity.
    cbn [map snd length expected_decomps]. rewrite Hsum, Hn.
    destruct (buffered_data s) eqn:Hb.
    + rewrite decoder_read_hit in Hcall by exact Hb. unfold bumped in Hcall.
      destruct (memcpy _ _ _ _) as [hp|]; [|discriminate].
      cbn zeta in Hcall.
      destruct (7 <? uint8 (lines_sent s + 1)).
      * destruct (free _ hp); [|discriminate]. injection Hcall as <-.
        cbn [buffered_data lines_sent trace] in *.
        rewrite Nat.sub_diag, Hd.
        split; [reflexivity|]. split; [constructor; [reflexivity|exact Hok]|].
        lia.
      * injection Hcall as <-.
        cbn [buffered_data lines_sent trace] in *.
        rewrite Nat.sub_diag, Hd.
        split; [reflexivity|]. split; [constructor; [reflexivity|exact Hok]|].
        lia.
    + destruct (decoder_read_miss _ _ _ _ _ _ _ _ Hb Hcall)
        as (_ & Hb1 & Hl1 & res & pv & Ht & _).
      rewrite Hb1, Hl1 in Hd. unfold bumped in Hd.
      rewrite Ht, decomp_count_app, Hd.
      change (decomp_count [EvDecomp 8 LV_TJPGD_SCALING_FACTOR; EvResult res])
        with 1%nat.
      replace (decomp_count (trace s) + 1 - decomp_count (trace s))%nat
        with 1%nat by lia.
      split; [reflexivity|]. split; [constructor; [reflexivity|exact Hok]|].
      lia.
Qed.

(** The first sixteen line reads after start-up.  From the statics' initial
    values, sixteen line reads for rows 0 to
    15 make the engine decompress exactly twice: once in the call for row 0,
    once in the call for row 8, and never in the calls for rows 1 to 7 (nor
    9 to 15).  Every call reports success. *)
Theorem sixteen_rows_two_decompressions dsc calls (s s' : world) out :
  buffered_data s = false ->
  lines_sent s = 0 ->
  map r_y calls = [0; 1; 2; 3; 4; 5; 6; 7; 8; 9; 10; 11; 12; 13; 14; 15] ->
  read_rows dsc calls s = Some (out, s') ->
  map snd out = [1; 0; 0; 0; 0; 0; 0; 0; 1; 0; 0; 0; 0; 0; 0; 0]%nat /\
  Forall (fun o => fst o = LV_RES_OK) out /\
  decomp_count (trace s') = (decomp_count (trace s) + 2)%nat.
Proof.
  intros Hb Hl Hrows Hrun.
  assert (Hlen : length calls = 16%nat)
    by (rewrite <- (length_map r_y), Hrows; reflexivity).
  destruct (read_rows_decomps _ _ _ _ _ Hrun) as (Hd & Hok & Hn).
  rewrite Hlen, Hb, Hl in Hd.
  change (expected_decomps 16 false 0)
    with [1; 0; 0; 0; 0; 0; 0; 0; 1; 0; 0; 0; 0; 0; 0; 0]%nat in Hd.
  rewrite Hd in Hn. split; [exact Hd|]. split; [exact Hok|exact Hn].
Qed.

(** C3, as the code has it.  A call that finds a strip copies [len] pixels
    from the cursor to the output buffer, moves the cursor on by [len]
    pixels, asks nothing of the engine and reports success.  It drops the
    strip, frees its buffer and resets the counter to 0 exactly when the
    incremented counter exceeds 7, that is, reaches the strip height 8;
    otherwise the incremented counter is stored and the strip stays. *)
Theorem decoder_read_serves_line dsc x y len buf (s s' : world) r :
  buffered_data s = true ->
  decoder_read dsc x y len buf s = Some (r, s') ->
  let n := len * BYTES_ON_PIXEL in
  let cursor := lvgl_feeder_ptr (user_ctx s) in
  r = LV_RES_OK /\
  trace s' = trace s /\
  lvgl_feeder_ptr (user_ctx s') = ptr_add cursor n /\
  (exists hp pixels,
      memcpy buf cursor n (e_heap (w_env s)) = Some hp /\
      load cursor n (e_heap (w_env s)) = Some pixels /\
      load buf n hp = Some pixels /\
      if 7 <? bumped s
      then free (frame_buffer (user_ctx s)) hp = Some (e_heap (w_env s'))
      else e_heap (w_env s') = hp) /\
  (buffered_data s' = false <-> 7 < bumped s) /\
  (7 < bumped s ->
     lines_sent s' = 0 /\ frame_buffer (user_ctx s') = NULL) /\
  (bumped s <= 7 ->
     lines_sent s' = bumped s /\
     frame_buffer (user_ctx s') = frame_buffer (user_ctx s)).
Proof.
  intros Hb Hrun n cursor. rewrite decoder_read_hit in Hrun by exact Hb.
  fold n cursor in Hrun.
  destruct (memcpy buf cursor n (e_heap (w_env s))) as [hp|] eqn:Hcp;
    [|discriminate].
  destruct (memcpy_copies _ _ _ _ _ Hcp) as (pixels & Hsrc & Hdst).
  cbn zeta in Hrun.
  destruct (7 <? bumped s) eqn:Hc.
  - apply Z.ltb_lt in Hc.
    destruct (free (frame_buffer (user_ctx s)) hp) as [hp'|] eqn:Hfree;
      [|discriminate].
    injection Hrun as <- <-. cbn.
    repeat split; try reflexivity; try lia.
    exists hp, pixels. auto.
  - apply Z.ltb_ge in Hc. injection Hrun as <- <-. cbn.
    repeat split; try reflexivity; try lia; try discriminate.
    exists hp, pixels. auto.
Qed.


(** ** The metadata query *)

(** The header within the range of LVGL's types.  When [decoder_info]
    accepts a file and the engine's preparation
    succeeds, the header carries the width the engine reported divided by
    the scale divisor, and the height 8, whatever height the engine
    reported; this for every width that [lv_coord_t] and the header field
    can hold. *)
Theorem decoder_info_header fn header0 header (s s' : world) :
  decoder_info (SrcFile fn) header0 s = Some ((LV_RES_OK, header), s') ->
  let native := width (jdec s') in
  lv_coord_t_of native = native ->
  hdr_dim_of (Z.quot native LV_TJPGD_SCALING_FACTOR_DIV)
    = Z.quot native LV_TJPGD_SCALING_FACTOR_DIV ->
  hdr_dim_of 8 = 8 ->
  (exists t, trace s' = t ++ [EvPrepare; EvResult JDR_OK]) /\
  w header = Z.quot native LV_TJPGD_SCALING_FACTOR_DIV /\
  h header = 8.
Proof.
  unfold decoder_info. cbn [lv_img_src_get_type]. run_monad.
  destruct (has_valid_extension fn) as [[|]|]; try discriminate.
  destruct (fopen fn (w_env s)) as [[i|] e]; world_simpl; [|discriminate].
  destruct (run_engine _ _ _ _ _) as [[[[res [iw ih]] pv] d]|]; [|discriminate].
  world_simpl. destruct res; world_simpl; try discriminate.
  destruct (LV_TJPGD_SCALING_FACTOR_DIV =? 0); [discriminate|].
  intros [= <- <-]. world_simpl.
  intros Hc Hw Hh. rewrite Hc, Hw, Hh.
  split; [|split; reflexivity].
  exists (trace s). now rewrite <- app_assoc.
Qed.

(** C5, as the code has it.  When [decoder_info] has opened the stream and
    then reports failure, the stream is still open and [user_ctx.fp] still
    points to it; the call has allocated and freed nothing, and has left the
    header alone. *)
Theorem decoder_info_failure_keeps_stream fn header0 header (s s' : world) i :
  has_valid_extension fn = Some true ->
  fst (fopen fn (w_env s)) = Some i ->
  decoder_info (SrcFile fn) header0 s = Some ((LV_RES_INV, header), s') ->
  is_open (Some i) (w_env s) = false /\
  is_open (Some i) (w_env s') = true /\
  fp (user_ctx s') = Some i /\
  (exists t res, trace s' = t ++ [EvPrepare; EvResult res] /\ res <> JDR_OK) /\
  length (e_heap (w_env s')) = length (e_heap (w_env s)) /\
  (forall b, live b (e_heap (w_env s')) = live b (e_heap (w_env s))) /\
  header = header0.
Proof.
  intros Hext Hopen. unfold decoder_info. cbn [lv_img_src_get_type].
  run_monad. rewrite Hext.
  destruct (fopen fn (w_env s)) as [f e] eqn:Hf. cbn [fst] in Hopen. subst f.
  world_simpl.
  destruct (run_engine _ _ _ _ _) as [[[[res [iw ih]] pv] d]|] eqn:Hrun;
    [|discriminate].
  apply run_engine_resources in Hrun; [|now right|now left].
  destruct Hrun as (Rfp & _ & _ & _ & _ & _ & Rlen & Rlive & _ & _ & Ropen).
  world_simpl.
  unfold fopen in Hf. destruct (find_file fn (e_fs (w_env s))) as [fl|];
    [|discriminate].
  injection Hf as <- <-. world_simpl.
  assert (Hwas : is_open (Some (length (e_streams (w_env s)))) (w_env s) = false).
  { unfold is_open, get_stream.
    now rewrite (lookup_ge_None_2 (e_streams (w_env s))) by lia. }
  assert (Hnow : forall e0 : env,
             (forall g, is_open g e0
                        = is_open g (with_streams
                            (e_streams (w_env s) ++
                             [Some {| s_data := f_data fl; s_pos := 0;
                                      s_seekable := f_seekable fl |}])
                            (w_env s))) ->
             is_open (Some (length (e_streams (w_env s)))) e0 = true).
  { intros e0 He0. rewrite He0. unfold is_open, get_stream. world_simpl.
    now rewrite lookup_app_r, Nat.sub_diag by lia. }
  destruct res eqn:Hres; world_simpl;
    [destruct (LV_TJPGD_SCALING_FACTOR_DIV =? 0); discriminate|..].
  all: intros [= <- <-]; world_simpl.
  all: split; [exact Hwas|].
  all: split; [apply Hnow; exact Ropen|].
  all: split; [exact Rfp|].
  all: split; [exists (trace s); eexists;
               (split; [rewrite <- app_assoc; reflexivity|discriminate])|].
  all: split; [exact Rlen|]; split; [exact Rlive|reflexivity].
Qed.

(** ** Across the operations of a session *)


Lemma decoder_open_session dsc (s s' : world) r :
  decoder_open dsc s = Some (r, s') -> s' = s.
Proof.
  unfold decoder_open, src_type. run_monad.
  destruct (src dsc) as [fn| | |]; cbn [lv_img_src_get_type];
    try (now intros [= <- <-]).
  destruct (has_valid_extension fn) as [[|]|]; try discriminate;
    now intros [= <- <-].
Qed.

(** [decoder_close] frees the work area and the descriptor's image data,
    and touches nothing else: not the strip buffer, not the stream, not the
    statics of [decoder_read]. *)
Lemma decoder_close_session dsc (s s' : world) u :
  decoder_close dsc s = Some (u, s') ->
  exists hp,
    s' = with_env (with_heap hp (w_env s)) s /\
    exists hp1,
      free (work (user_ctx s)) (e_heap (w_env s)) = Some hp1 /\
      if is_null (img_data dsc) then hp = hp1
      else free (img_data dsc) hp1 = Some hp.
Proof.
  unfold decoder_close. run_monad.
  destruct (free (work (user_ctx s)) (e_heap (w_env s))) as [hp1|] eqn:Hw;
    [|discriminate].
  destruct (is_null (img_data dsc)) eqn:Hn.
  - intros [= <- <-]. exists hp1. split; [reflexivity|].
    exists hp1. auto.
  - world_simpl.
    destruct (free (img_data dsc) hp1) as [hp|] eqn:Hd; [|discriminate].
    intros [= <- <-]. exists hp. split; [reflexivity|].
    exists hp1. auto.
Qed.




(** ** More on the line reader: the cycle of a strip *)

(** One call moves the statics one step round a cycle of eight. *)
Lemma decoder_read_phase dsc x y len buf (s s1 : world) r :
  statics_ok s ->
  decoder_read dsc x y len buf s = Some (r, s1) ->
  statics_ok s1 /\
  lines_sent s1 = (lines_sent s + 1) mod 8 /\
  buffered_data s1 = negb ((lines_sent s + 1) mod 8 =? 0) /\
  decomp_count (trace s1)
  = (decomp_count (trace s) + b2n (negb (buffered_data s)))%nat.
Proof.
  unfold statics_ok. intros Hinv Hrun.
  destruct (buffered_data s) eqn:Hb.
  - rewrite decoder_read_hit in Hrun by exact Hb. unfold bumped in Hrun.
    assert (Hc : uint8 (lines_sent s + 1) = lines_sent s + 1)
      by (unfold uint8, wrap; apply Z.mod_small; lia).
    rewrite Hc in Hrun.
    destruct (memcpy _ _ _ _) as [hp|]; [|discriminate]. cbn zeta in Hrun.
    destruct (7 <? lines_sent s + 1) eqn:Hdrop.
    + apply Z.ltb_lt in Hdrop.
      destruct (free _ hp); [|discriminate]. injection Hrun as <- <-.
      cbn [buffered_data lines_sent trace b2n negb].
      assert (Hm : lines_sent s = 7) by lia. rewrite Hm.
      repeat split; try reflexivity. lia.
    + apply Z.ltb_ge in Hdrop. injection Hrun as <- <-.
      cbn [buffered_data lines_sent trace b2n negb].
      assert (Hm : (lines_sent s + 1) mod 8 = lines_sent s + 1)
        by (apply Z.mod_small; lia).
      rewrite Hm.
      replace (lines_sent s + 1 =? 0) with false by (symmetry; apply Z.eqb_neq; lia).
      repeat split; try reflexivity; lia.
  - destruct (decoder_read_miss _ _ _ _ _ _ _ _ Hb Hrun)
      as (_ & Hb1 & Hl1 & res & pv & Ht & _).
    unfold bumped in Hl1. rewrite Hinv in Hl1 |- *.
    rewrite Hb1, Hl1, Ht, decomp_count_app.
    change (uint8 (0 + 1)) with 1. change ((0 + 1) mod 8) with 1.
    repeat split; try reflexivity; lia.
Qed.



Lemma decoder_info_statics src header (s s' : world) r :
  decoder_info src header s = Some (r, s') ->
  buffered_data s' = buffered_data s /\ lines_sent s' = lines_sent s.
Proof.
  unfold decoder_info.
  destruct src as [fn| | |]; cbn [lv_img_src_get_type];
    try (intros [= <- <-]; split; reflexivity).
  run_monad.
  destruct (has_valid_extension fn) as [[|]|]; try discriminate;
    try (intros [= <- <-]; split; reflexivity).
  destruct (fopen fn (w_env s)) as [[i|] e]; world_simpl;
    [|intros [= <- <-]; world_simpl; split; reflexivity].
  destruct (run_engine _ _ _ _ _) as [[[[res [iw ih]] pv] d]|]; [|discriminate].
  world_simpl.
  destruct res; world_simpl;
    [destruct (LV_TJPGD_SCALING_FACTOR_DIV =? 0); [discriminate|]|..].
  all: intros [= <- <-]; world_simpl; split; reflexivity.
Qed.

(** X6.  The statics of [decoder_read] keep their invariant through every
    operation of a session: either no strip is at hand and no line is
    counted, or a strip is at hand and one to seven lines are counted.  The
    counter never reaches 8 between calls. *)
Theorem statics_ok_kept os : forall (s s' : world) u,
  statics_ok s ->
  run_ops os s = Some (u, s') ->
  statics_ok s'.
Proof.
  induction os as [|o rest IH]; intros s s' u Hinv; cbn [run_ops]; run_monad.
  - now intros [= <- <-].
  - destruct (run_op o s) as [[u1 s1]|] eqn:Ho; [|discriminate].
    intros Hrest. apply (IH s1 s' u); [|exact Hrest]. clear IH Hrest.
    destruct o as [sr hd|dsc|dsc x y len buf|dsc]; cbn [run_op] in Ho;
      run_monad.
    + destruct (decoder_info sr hd s) as [[r s2]|] eqn:Hi; [|discriminate].
      injection Ho as _ <-.
      destruct (decoder_info_statics _ _ _ _ _ Hi) as [Hb Hl].
      unfold statics_ok in *. now rewrite Hb, Hl.
    + destruct (decoder_open dsc s) as [[r s2]|] eqn:Hop; [|discriminate].
      injection Ho as _ <-. now rewrite (decoder_open_session _ _ _ _ Hop).
    + destruct (decoder_read dsc x y len buf s) as [[r s2]|] eqn:Hr;
        [|discriminate].
      injection Ho as _ <-.
      now destruct (decoder_read_phase _ _ _ _ _ _ _ _ Hinv Hr).
    + destruct (decoder_close_session _ _ _ _ Ho) as (hp & -> & _).
      exact Hinv.
Qed.

(** *** The blocks the line reader holds *)

Lemma live_count_ext : forall hp hp' : heap,
  length hp' = length hp ->
  (forall b, live b hp' = live b hp) ->
  live_count hp' = live_count hp.
Proof.
  induction hp as [|o hp IH]; intros [|o' hp'] Hlen Hlive; try discriminate;
    [reflexivity|].
  unfold live_count. cbn [List.filter].
  assert (Ho : is_block o' = is_block o).
  { specialize (Hlive 0%nat). unfold live in Hlive. cbn in Hlive.
    destruct o, o'; cbn; congruence. }
  assert (Hrest : live_count hp' = live_count hp).
  { apply IH; [now injection Hlen|]. intros b. exact (Hlive (S b)). }
  unfold live_count in Hrest. rewrite Ho.
  destruct (is_block o); cbn [length]; now rewrite Hrest.
Qed.

Lemma live_count_new (hp : heap) cs :
  live_count (hp ++ [Some cs]) = S (live_count hp).
Proof.
  unfold live_count. rewrite List.filter_app, length_app. cbn. lia.
Qed.

Lemma live_count_drop : forall (hp : heap) b,
  live b hp = true ->
  S (live_count (<[b := None]> hp)) = live_count hp.
Proof.
  induction hp as [|o hp IH]; intros b Hb.
  - discriminate.
  - destruct b as [|b].
    + unfold live in Hb. cbn in Hb. destruct o; [|discriminate].
      reflexivity.
    + change (<[S b := None]> (o :: hp)) with (o :: <[b := None]> hp).
      unfold live_count. cbn [List.filter].
      specialize (IH b Hb). unfold live_count in IH.
      destruct (is_block o); cbn [length]; now rewrite <- IH.
Qed.

Lemma live_count_free p (hp hp' : heap) :
  free p hp = Some hp' -> p <> NULL ->
  S (live_count hp') = live_count hp.
Proof.
  unfold free. destruct p as [[b o]|]; [|now intros _ []].
  destruct ((o =? 0) && live b hp) eqn:E; [|discriminate].
  apply andb_prop in E as [_ Hb]. intros [= <-] _. now apply live_count_drop.
Qed.

(** A call that finds no strip allocates the strip buffer as a new block
    and leaves the other resources as they are. *)
Lemma decoder_read_miss_heap dsc x y len buf (s s1 : world) r :
  buffered_data s = false ->
  decoder_read dsc x y len buf s = Some (r, s1) ->
  frame_buffer (user_ctx s1) = Some (length (e_heap (w_env s)), 0) /\
  live_count (e_heap (w_env s1)) = S (live_count (e_heap (w_env s))) /\
  fp (user_ctx s1) = fp (user_ctx s) /\
  work (user_ctx s1) = work (user_ctx s) /\
  (forall f, is_open f (w_env s1) = is_open f (w_env s)).
Proof.
  intros Hb. unfold decoder_read. run_monad. rewrite Hb.
  unfold malloc. world_simpl.
  destruct (ftell _ _); [|discriminate]. world_simpl.
  destruct (run_engine _ _ _ _ _) as [[[res pv] d]|] eqn:Hrun; [|discriminate].
  apply run_engine_resources in Hrun;
    [|unfold session_infunc, file_infunc; destruct (device _); auto
     |now right].
  destruct Hrun as (Rfp & Rwork & Rfb & _ & _ & _ & Rlen & Rlive & _ & _ & Ropen).
  world_simpl.
  destruct (memcpy _ _ _ _) as [hp|] eqn:Hcp; [|discriminate]. world_simpl.
  destruct (ftell _ _); [|discriminate].
  intros [= <- <-]. world_simpl.
  split; [exact Rfb|]. split; [|split; [exact Rfp|split; [exact Rwork|exact Ropen]]].
  rewrite <- (live_count_new (e_heap (w_env s))
                (replicate (Z.to_nat (uint32 (sz_width (size (user_ctx s)) * 8
                                              * BYTES_ON_PIXEL))) None)).
  transitivity (live_count (e_heap (d_env d))).
  - apply live_count_ext.
    + eapply memcpy_heap_length; eassumption.
    + intros b. eapply memcpy_live; eassumption.
  - apply live_count_ext; assumption.
Qed.

Lemma decoder_read_blocks dsc x y len buf (s s1 : world) r :
  strip_ok s ->
  decoder_read dsc x y len buf s = Some (r, s1) ->
  strip_ok s1 /\
  (live_count (e_heap (w_env s1)) + b2n (buffered_data s)
   = live_count (e_heap (w_env s)) + b2n (buffered_data s1))%nat.
Proof.
  unfold strip_ok. intros Hinv Hrun.
  destruct (buffered_data s) eqn:Hb.
  - specialize (Hinv eq_refl).
    rewrite decoder_read_hit in Hrun by exact Hb.
    destruct (memcpy _ _ _ _) as [hp|] eqn:Hcp; [|discriminate].
    assert (Hsame : live_count hp = live_count (e_heap (w_env s))).
    { apply live_count_ext.
      - eapply memcpy_heap_length; eassumption.
      - intros b. eapply memcpy_live; eassumption. }
    cbn zeta in Hrun.
    destruct (7 <? bumped s).
    + destruct (free _ hp) as [hp'|] eqn:Hfree; [|discriminate].
      injection Hrun as <- <-. world_simpl.
      pose proof (live_count_free _ _ _ Hfree Hinv) as Hdrop.
      split; [discriminate|]. cbn [b2n]. lia.
    + injection Hrun as <- <-. world_simpl.
      split; [intros _; exact Hinv|]. cbn [b2n]. lia.
  - destruct (decoder_read_miss _ _ _ _ _ _ _ _ Hb Hrun) as (_ & Hb1 & _).
    destruct (decoder_read_miss_heap _ _ _ _ _ _ _ _ Hb Hrun) as (Hfb & Hn & _).
    rewrite Hb1, Hfb, Hn. split; [discriminate|]. cbn [b2n]. lia.
Qed.

(** X7.  The line reader holds one block at most.  Through any run of line
    reads the number of allocated blocks changes by the resident strip
    alone: it is one more than at the start when a strip has become
    resident, one less when the resident strip has been dropped, and the
    same otherwise.  In particular whole cycles of eight lines free every
    buffer they allocate. *)
Theorem read_rows_blocks dsc calls : forall (s s' : world) out,
  strip_ok s ->
  read_rows dsc calls s = Some (out, s') ->
  strip_ok s' /\
  (live_count (e_heap (w_env s')) + b2n (buffered_data s)
   = live_count (e_heap (w_env s)) + b2n (buffered_data s'))%nat.
Proof.
  induction calls as [|a rest IH]; intros s s' out Hinv Hrun.
  - injection Hrun as <- <-. split; [exact Hinv|reflexivity].
  - cbn [read_rows] in Hrun. run_monad.
    destruct (decoder_read dsc (r_x a) (r_y a) (r_len a) (r_buf a) s)
      as [[r s1]|] eqn:Hcall; [|discriminate].
    destruct (read_rows dsc rest s1) as [[out1 s2]|] eqn:Hrest; [|discriminate].
    injection Hrun as _ <-.
    destruct (decoder_read_blocks _ _ _ _ _ _ _ _ Hinv Hcall) as [Hinv1 Hn1].
    destruct (IH _ _ _ Hinv1 Hrest) as [Hinv2 Hn2].
    split; [exact Hinv2|lia].
Qed.

(** *** The lines of a strip *)

Lemma store_other_block p data (hp hp' : heap) b :
  block_of p <> Some b -> store p data hp = Some hp' -> hp' !! b = hp !! b.
Proof.
  unfold store. destruct p as [[b' o]|]; [|discriminate]. cbn [block_of].
  intros Hne. destruct (hp !! b') as [[cs|]|]; try discriminate.
  case_match; [|discriminate]. intros [= <-].
  apply list_lookup_insert_ne. congruence.
Qed.

Lemma memcpy_other_block dst sp n (hp hp' : heap) b :
  block_of dst <> Some b -> memcpy dst sp n hp = Some hp' -> hp' !! b = hp !! b.
Proof.
  intros Hne. unfold memcpy. destruct (overlap dst sp n); [discriminate|].
  destruct (load sp n hp); [|discriminate]. now apply store_other_block.
Qed.

Lemma load_same_block b o n (hp hp' : heap) :
  hp' !! b = hp !! b -> load (Some (b, o)) n hp' = load (Some (b, o)) n hp.
Proof. unfold load. now intros ->. Qed.

Lemma read_rows_app dsc calls1 calls2 : forall (s s' : world) out,
  read_rows dsc (calls1 ++ calls2) s = Some (out, s') ->
  exists out1 s1 out2,
    read_rows dsc calls1 s = Some (out1, s1) /\
    read_rows dsc calls2 s1 = Some (out2, s').
Proof.
  induction calls1 as [|a rest IH]; intros s s' out Hrun.
  - exists [], s, out. split; [reflexivity|exact Hrun].
  - cbn [app read_rows] in Hrun |- *. run_monad.
    destruct (decoder_read dsc (r_x a) (r_y a) (r_len a) (r_buf a) s)
      as [[r s1]|]; [|discriminate].
    destruct (read_rows dsc (rest ++ calls2) s1) as [[out0 s2]|] eqn:Hrest;
      [|discriminate].
    injection Hrun as _ <-.
    destruct (IH _ _ _ Hrest) as (out1 & s3 & out2 & H1' & H2').
    rewrite H1'. eexists _, s3, out2. split; [reflexivity|exact H2'].
Qed.

Lemma bytes_asked_app calls1 calls2 :
  bytes_asked (calls1 ++ calls2) = bytes_asked calls1 + bytes_asked calls2.
Proof.
  unfold bytes_asked. induction calls1 as [|a rest IH]; cbn [app fold_right].
  - lia.
  - rewrite IH. lia.
Qed.

(** A line served from a strip that stays: the cursor moves on, the strip
    is untouched, and the line is the slice of the strip at the cursor. *)
Lemma decoder_read_slice dsc x y len buf (s s1 : world) r b o :
  buffered_data s = true ->
  0 <= lines_sent s -> lines_sent s + 1 <= 7 ->
  lvgl_feeder_ptr (user_ctx s) = Some (b, o) ->
  block_of buf <> Some b ->
  decoder_read dsc x y len buf s = Some (r, s1) ->
  buffered_data s1 = true /\
  lines_sent s1 = lines_sent s + 1 /\
  lvgl_feeder_ptr (user_ctx s1) = Some (b, o + len * BYTES_ON_PIXEL) /\
  e_heap (w_env s1) !! b = e_heap (w_env s) !! b /\
  exists pixels,
    load (Some (b, o)) (len * BYTES_ON_PIXEL) (e_heap (w_env s)) = Some pixels /\
    load buf (len * BYTES_ON_PIXEL) (e_heap (w_env s1)) = Some pixels.
Proof.
  intros Hb Hl0 Hl7 Hcur Hbuf Hrun.
  rewrite decoder_read_hit in Hrun by exact Hb. rewrite Hcur in Hrun.
  destruct (memcpy _ _ _ _) as [hp|] eqn:Hcp; [|discriminate].
  cbn zeta in Hrun. unfold bumped in Hrun.
  assert (Hc : uint8 (lines_sent s + 1) = lines_sent s + 1)
    by (unfold uint8, wrap; apply Z.mod_small; lia).
  rewrite Hc in Hrun.
  replace (7 <? lines_sent s + 1) with false in Hrun
    by (symmetry; apply Z.ltb_ge; lia).
  injection Hrun as <- <-. world_simpl.
  destruct (memcpy_copies _ _ _ _ _ Hcp) as (pixels & Hsrc & Hdst).
  repeat split; try reflexivity.
  - eapply memcpy_other_block; eassumption.
  - exists pixels. auto.
Qed.

Lemma read_rows_cursor dsc calls : forall (s s' : world) out b o,
  buffered_data s = true ->
  0 <= lines_sent s -> lines_sent s + Z.of_nat (length calls) <= 7 ->
  lvgl_feeder_ptr (user_ctx s) = Some (b, o) ->
  Forall (fun c => block_of (r_buf c) <> Some b) calls ->
  read_rows dsc calls s = Some (out, s') ->
  buffered_data s' = true /\
  lines_sent s' = lines_sent s + Z.of_nat (length calls) /\
  lvgl_feeder_ptr (user_ctx s') = Some (b, o + bytes_asked calls) /\
  e_heap (w_env s') !! b = e_heap (w_env s) !! b.
Proof.
  induction calls as [|a rest IH]; intros s s' out b o Hb Hl0 Hl7 Hcur Hbufs Hrun.
  - injection Hrun as <- <-. cbn [length Z.of_nat]. unfold bytes_asked.
    cbn [fold_right]. rewrite !Z.add_0_r. auto.
  - cbn [read_rows] in Hrun. run_monad.
    destruct (decoder_read dsc (r_x a) (r_y a) (r_len a) (r_buf a) s)
      as [[r s1]|] eqn:Hcall; [|discriminate].
    destruct (read_rows dsc rest s1) as [[out1 s2]|] eqn:Hrest; [|discriminate].
    injection Hrun as _ <-.
    cbn [length] in Hl7. rewrite Nat2Z.inj_succ in Hl7.
    inversion Hbufs as [|? ? Hbuf Hbufs']; subst.
    destruct (decoder_read_slice _ _ _ _ _ _ _ _ _ _ Hb Hl0 ltac:(lia) Hcur Hbuf Hcall)
      as (Hb1 & Hl1 & Hcur1 & Hblk1 & _).
    destruct (IH _ _ _ _ _ Hb1 ltac:(lia) ltac:(lia) Hcur1 Hbufs' Hrest)
      as (Hb2 & Hl2 & Hcur2 & Hblk2).
    split; [exact Hb2|]. split; [cbn [length]; lia|]. split.
    + rewrite Hcur2. unfold bytes_asked. cbn [fold_right]. do 2 f_equal. lia.
    + now rewrite Hblk2.
Qed.

(** X16.  The lines of a strip are consecutive slices of it.  While a strip
    is at hand and is not dropped (the counter stays at 7 or below), and
    the output buffers lie outside the strip, the line handed out by a call
    is the slice of the strip, as it was before the run, that starts where
    the calls before it have stopped: at the cursor plus the bytes they
    asked for; and the strip itself is never written. *)
Theorem hits_serve_consecutive_slices dsc calls a (s s' : world) out b o :
  buffered_data s = true ->
  0 <= lines_sent s ->
  lines_sent s + Z.of_nat (length calls) + 1 <= 7 ->
  lvgl_feeder_ptr (user_ctx s) = Some (b, o) ->
  Forall (fun c => block_of (r_buf c) <> Some b) (calls ++ [a]) ->
  read_rows dsc (calls ++ [a]) s = Some (out, s') ->
  let n := r_len a * BYTES_ON_PIXEL in
  (exists pixels,
      load (Some (b, o + bytes_asked calls)) n (e_heap (w_env s)) = Some pixels /\
      load (r_buf a) n (e_heap (w_env s')) = Some pixels) /\
  lvgl_feeder_ptr (user_ctx s') = Some (b, o + bytes_asked (calls ++ [a])) /\
  e_heap (w_env s') !! b = e_heap (w_env s) !! b.
Proof.
  intros Hb Hl0 Hl7 Hcur Hbufs Hrun n.
  apply Forall_app in Hbufs as [Hbufs Hbuf].
  inversion Hbuf as [|? ? Hbuf1 _]; subst.
  destruct (read_rows_app _ _ _ _ _ _ Hrun) as (out1 & s1 & out2 & Hrun1 & Hrun2).
  assert (Hk : lines_sent s + Z.of_nat (length calls) <= 7) by lia.
  destruct (read_rows_cursor _ _ _ _ _ _ _ Hb Hl0 Hk Hcur Hbufs Hrun1)
    as (Hb1 & Hl1 & Hcur1 & Hblk1).
  assert (Hl1' : 0 <= lines_sent s1) by lia.
  assert (Hk1 : lines_sent s1 + 1 <= 7) by lia.
  cbn [read_rows] in Hrun2. run_monad.
  destruct (decoder_read dsc (r_x a) (r_y a) (r_len a) (r_buf a) s1)
    as [[r s2]|] eqn:Hcall; [|discriminate].
  injection Hrun2 as _ <-.
  destruct (decoder_read_slice _ _ _ _ _ _ _ _ _ _ Hb1 Hl1' Hk1
              Hcur1 Hbuf1 Hcall)
    as (_ & _ & Hcur2 & Hblk2 & pixels & Hsrc & Hdst).
  split; [|split].
  - exists pixels. split; [|exact Hdst].
    rewrite <- Hsrc. symmetry. now apply load_same_block.
  - rewrite Hcur2, bytes_asked_app.
    assert (Hone : bytes_asked [a] = r_len a * BYTES_ON_PIXEL)
      by (unfold bytes_asked; cbn [fold_right]; lia).
    rewrite Hone. do 2 f_equal. lia.
  - now rewrite Hblk2.
Qed.

(** ** More on the entry points *)

Lemma live_insert_none (hp : heap) b b' :
  live b hp = false -> live b (<[b' := None]> hp) = false.
Proof.
  unfold live. intros Hb. destruct (decide (b' = b)) as [->|Hne].
  - destruct (decide (b < length hp)%nat) as [Hlt|Hge].
    + now rewrite list_lookup_insert_eq.
    + now rewrite list_insert_ge by lia.
  - now rewrite list_lookup_insert_ne.
Qed.

Lemma free_keeps_dead p (hp hp' : heap) b :
  free p hp = Some hp' -> live b hp = false -> live b hp' = false.
Proof.
  unfold free. destruct p as [[b' o]|]; [|now intros [= <-]].
  destruct ((o =? 0) && live b' hp); [|discriminate].
  intros [= <-]. apply live_insert_none.
Qed.

Lemma free_kills b o (hp hp' : heap) :
  free (Some (b, o)) hp = Some hp' -> live b hp' = false.
Proof.
  unfold free. destruct ((o =? 0) && live b hp) eqn:E; [|discriminate].
  apply andb_prop in E as [_ Hb]. intros [= <-]. unfold live in *.
  destruct (hp !! b) as [[cs|]|] eqn:Eb; try discriminate.
  now rewrite list_lookup_insert_eq by (eapply lookup_lt_Some; eassumption).
Qed.

Lemma free_dead b o (hp : heap) :
  live b hp = false -> free (Some (b, o)) hp = None.
Proof. unfold free. intros ->. now rewrite andb_false_r. Qed.

(** X8.  [decoder_close] is not to be called twice: once a call has freed
    the work area, a second call, with whatever descriptor, frees the same
    pointer again and has no defined behaviour. *)
Theorem decoder_close_twice dsc1 dsc2 (s s1 : world) u :
  work (user_ctx s) <> NULL ->
  decoder_close dsc1 s = Some (u, s1) ->
  decoder_close dsc2 s1 = None.
Proof.
  intros Hwork Hclose.
  destruct (decoder_close_session _ _ _ _ Hclose) as (hp & -> & hp1 & Hfree & Himg).
  destruct (work (user_ctx s)) as [[b o]|] eqn:Hw; [|now destruct Hwork].
  assert (Hdead : live b hp = false).
  { pose proof (free_kills _ _ _ _ Hfree) as Hb1.
    destruct (is_null (img_data dsc1)); [now subst hp|].
    eapply free_keeps_dead; eassumption. }
  unfold decoder_close. run_monad. world_simpl. rewrite Hw.
  now rewrite (free_dead b o hp Hdead).
Qed.

(** X9.  When [decoder_info] reports success.  It reports [LV_RES_OK] for
    a source in memory (for which it does nothing at all: the header is not
    filled in), and for a file exactly when the engine was asked to prepare
    in this call and answered [JDR_OK]; for every other source, and for
    every file it does not get as far as the engine with, it reports
    [LV_RES_INV] and hands the header back as it got it. *)
Theorem decoder_info_ok_iff sr header0 header (s s' : world) r :
  decoder_info sr header0 s = Some ((r, header), s') ->
  (r = LV_RES_OK <->
   sr = SrcVariable \/
   exists fn, sr = SrcFile fn /\
              trace s' = trace s ++ [EvPrepare; EvResult JDR_OK]) /\
  (sr = SrcVariable -> header = header0 /\ s' = s) /\
  (r = LV_RES_INV -> header = header0).
Proof.
  assert (Hno : forall t : list event, t <> t ++ [EvPrepare; EvResult JDR_OK]).
  { intros t Heq. apply (f_equal length) in Heq. rewrite length_app in Heq.
    cbn in Heq. lia. }
  assert (Hlast : forall (t : list event) res,
             (t ++ [EvPrepare]) ++ [EvResult res]
             = t ++ [EvPrepare; EvResult JDR_OK] -> res = JDR_OK).
  { intros t res Heq. rewrite <- app_assoc in Heq.
    apply app_inv_head in Heq. now injection Heq. }
  unfold decoder_info.
  destruct sr as [fn| | |]; cbn [lv_img_src_get_type].
  2:{ intros [= <- <- <-]. repeat split; auto; discriminate. }
  2,3: intros [= <- <- <-]; repeat split; try discriminate; auto;
       intros [Hv|(fn & Hf & _)]; discriminate.
  run_monad.
  destruct (has_valid_extension fn) as [[|]|]; try discriminate.
  2:{ intros [= <- <- <-]. repeat split; try discriminate; auto.
      intros [Hv|(fn' & _ & Ht)]; [discriminate|]. now apply Hno in Ht. }
  destruct (fopen fn (w_env s)) as [[i|] e]; world_simpl.
  2:{ intros [= <- <- <-]. world_simpl. repeat split; try discriminate; auto.
      intros [Hv|(fn' & _ & Ht)]; [discriminate|]. now apply Hno in Ht. }
  destruct (run_engine _ _ _ _ _) as [[[[res [iw ih]] pv] d]|]; [|discriminate].
  world_simpl.
  destruct res eqn:Hres; world_simpl;
    [destruct (LV_TJPGD_SCALING_FACTOR_DIV =? 0); [discriminate|]|..].
  1:{ intros [= <- <- <-]. world_simpl. repeat split; try discriminate.
      intros _. right. exists fn. split; [reflexivity|].
      now rewrite <- app_assoc. }
  all: intros [= <- <- <-]; world_simpl; repeat split; try discriminate; auto.
  all: intros [Hv|(fn' & _ & Ht)]; [discriminate|]; apply Hlast in Ht.
  all: discriminate.
Qed.

(** X10.  A name with the right extension that cannot be opened.
    [decoder_info] reports [LV_RES_INV], does not ask anything of the
    engine and changes nothing but [user_ctx.fp], in which it stores the
    null pointer: the handle of a stream opened by an earlier query is
    gone, and the next line read that needs the engine has no defined
    behaviour. *)
Theorem decoder_info_missing_file fn header0 (s : world) :
  has_valid_extension fn = Some true ->
  find_file fn (e_fs (w_env s)) = None ->
  let s' := with_user_ctx (set_fp None (user_ctx s)) s in
  decoder_info (SrcFile fn) header0 s = Some ((LV_RES_INV, header0), s') /\
  forall dsc x y len buf,
    buffered_data s = false ->
    decoder_read dsc x y len buf s' = None.
Proof.
  intros Hext Hfile s'. split.
  - unfold decoder_info. cbn [lv_img_src_get_type]. run_monad. rewrite Hext.
    unfold fopen. rewrite Hfile. subst s'. world_simpl.
    destruct s as [e jd c b l t]. destruct e. reflexivity.
  - intros dsc x y len buf Hb. unfold decoder_read. run_monad.
    subst s'. world_simpl. rewrite Hb. unfold malloc. world_simpl.
    reflexivity.
Qed.

(** X11.  [decoder_open] looks at the name only.  It never changes the
    state and never looks for the file: it reports [LV_RES_OK] exactly for a
    source in memory and for a file name that ends in "jpg"; for such a file
    it sets [img_data] to the null pointer (the image is to be read line by
    line), and in every other case it hands the descriptor back as it
    got it. *)
Theorem decoder_open_result dsc dsc' (s s' : world) r :
  decoder_open dsc s = Some ((r, dsc'), s') ->
  s' = s /\
  src dsc' = src dsc /\
  (r = LV_RES_OK <->
   src dsc = SrcVariable \/
   exists fn, src dsc = SrcFile fn /\ has_valid_extension fn = Some true) /\
  (forall fn, src dsc = SrcFile fn -> r = LV_RES_OK -> img_data dsc' = NULL) /\
  (r = LV_RES_INV \/ src dsc = SrcVariable -> dsc' = dsc).
Proof.
  unfold decoder_open, src_type. run_monad.
  destruct (src dsc) as [fn| | |] eqn:Hsrc; cbn [lv_img_src_get_type].
  - destruct (has_valid_extension fn) as [[|]|] eqn:Hext; try discriminate;
      intros [= <- <- <-]; cbn [src img_data].
    + repeat split; auto; try discriminate.
      * intros _. right. now exists fn.
      * intros [Hr|Hv]; discriminate.
    + repeat split; auto; try discriminate.
      intros [Hv|(fn' & [= <-] & Hext')]; [discriminate|congruence].
  - intros [= <- <- <-]. repeat split; auto; discriminate.
  - intros [= <- <- <-]. repeat split; auto; try discriminate.
    intros [Hv|(fn' & Hf & _)]; discriminate.
  - intros [= <- <- <-]. repeat split; auto; try discriminate.
    intros [Hv|(fn' & Hf & _)]; discriminate.
Qed.

Lemma memcpy_negative dst sp n (hp : heap) : n < 0 -> memcpy dst sp n hp = None.
Proof.
  intros Hn. unfold memcpy.
  assert (Ho : overlap dst sp n = false).
  { unfold overlap. destruct dst as [[b1 o1]|], sp as [[b2 o2]|]; try reflexivity.
    replace (0 <? n) with false by (symmetry; apply Z.ltb_ge; lia).
    now rewrite andb_false_r. }
  rewrite Ho. unfold load. destruct sp as [[b o]|]; [|reflexivity].
  destruct (hp !! b) as [[cs|]|]; try reflexivity.
  replace (0 <=? n) with false by (symmetry; apply Z.leb_gt; lia).
  now rewrite andb_false_r.
Qed.

Lemma memcpy_null_dst sp n (hp : heap) : memcpy NULL sp n hp = None.
Proof.
  unfold memcpy, NULL. cbn [overlap]. now destruct (load sp n hp).
Qed.

(** X12.  Calls of [decoder_read] without defined behaviour: a negative
    number of bytes to copy ([len * BYTES_ON_PIXEL < 0], a size no buffer
    has once converted to [size_t]), a null output buffer, and a call that
    needs the engine while [user_ctx.fp] is no open stream (no successful
    metadata query has been made). *)
Theorem decoder_read_undefined dsc x y len buf (s : world) :
  len * BYTES_ON_PIXEL < 0 \/
  buf = NULL \/
  (buffered_data s = false /\ is_open (fp (user_ctx s)) (w_env s) = false) ->
  decoder_read dsc x y len buf s = None.
Proof.
  intros Hbad.
  assert (Hcp : (len * BYTES_ON_PIXEL < 0 \/ buf = NULL) ->
                forall sp (hp : heap), memcpy buf sp (len * BYTES_ON_PIXEL) hp = None).
  { intros [Hn| ->] sp hp; [now apply memcpy_negative|apply memcpy_null_dst]. }
  destruct (buffered_data s) eqn:Hb.
  - rewrite decoder_read_hit by exact Hb.
    rewrite Hcp; [reflexivity|]. destruct Hbad as [?|[?|[? _]]]; auto; discriminate.
  - unfold decoder_read. run_monad. rewrite Hb. unfold malloc. world_simpl.
    destruct Hbad as [Hn|[Hn|[_ Hclosed]]].
    + destruct (ftell _ _); [|reflexivity]. world_simpl.
      destruct (run_engine _ _ _ _ _) as [[[res pv] d]|]; [|reflexivity].
      world_simpl. now rewrite Hcp by auto.
    + destruct (ftell _ _); [|reflexivity]. world_simpl.
      destruct (run_engine _ _ _ _ _) as [[[res pv] d]|]; [|reflexivity].
      world_simpl. now rewrite Hcp by auto.
    + unfold ftell. unfold is_open in Hclosed. world_simpl.
      assert (Hg : get_stream (fp (user_ctx s))
                     {| e_heap := e_heap (w_env s) ++
                          [Some (replicate
                                   (Z.to_nat (uint32 (sz_width (size (user_ctx s))
                                                      * 8 * BYTES_ON_PIXEL)))
                                   None)];
                        e_fs := e_fs (w_env s);
                        e_streams := e_streams (w_env s) |} = None).
      { unfold get_stream in *. cbn [e_streams].
        destruct (fp (user_ctx s)) as [i|]; [|reflexivity].
        destruct (e_streams (w_env s) !! i) as [[st|]|]; try reflexivity.
        discriminate. }
      now rewrite Hg.
Qed.

(** X13.  What a successful metadata query leaves in the session.  The
    stream is open and [user_ctx.fp] points to it, the session is bound to
    [user_ctx], the header says raw format, [frame_buffer_width] is the
    width the engine reported divided by the scale divisor (as an
    [uint16_t]) while [size] is copied from the header; the buffers of the
    device object and the statics of [decoder_read] are what they were. *)
Theorem decoder_info_session_fields fn header0 header (s s' : world) :
  decoder_info (SrcFile fn) header0 s = Some ((LV_RES_OK, header), s') ->
  is_open (fp (user_ctx s')) (w_env s') = true /\
  fp (user_ctx s') = Some (length (e_streams (w_env s))) /\
  device (jdec s') = DevUserCtx /\
  always_zero header = 0 /\ cf header = LV_IMG_CF_RAW /\
  frame_buffer_width (user_ctx s')
  = uint16 (Z.quot (width (jdec s')) LV_TJPGD_SCALING_FACTOR_DIV) /\
  size (user_ctx s')
  = {| sz_height := uint16 (h header); sz_width := uint16 (w header) |} /\
  work (user_ctx s') = work (user_ctx s) /\
  frame_buffer (user_ctx s') = frame_buffer (user_ctx s) /\
  lvgl_feeder_ptr (user_ctx s') = lvgl_feeder_ptr (user_ctx s) /\
  buffered_data s' = buffered_data s /\ lines_sent s' = lines_sent s.
Proof.
  unfold decoder_info. cbn [lv_img_src_get_type]. run_monad.
  destruct (has_valid_extension fn) as [[|]|]; try discriminate.
  destruct (fopen fn (w_env s)) as [f e] eqn:Hf.
  unfold fopen in Hf.
  destruct (find_file fn (e_fs (w_env s))) as [fl|]; injection Hf as <- <-;
    world_simpl; [|discriminate].
  destruct (run_engine _ _ _ _ _) as [[[[res [iw ih]] pv] d]|] eqn:Hrun;
    [|discriminate].
  apply run_engine_resources in Hrun; [|now right|now left].
  destruct Hrun as (Rfp & Rwork & Rfb & Rfeed & _ & _ & _ & _ & _ & _ & Ropen).
  world_simpl.
  destruct res; world_simpl; try discriminate.
  destruct (LV_TJPGD_SCALING_FACTOR_DIV =? 0); [discriminate|].
  intros [= <- <-]. world_simpl.
  split.
  { rewrite Rfp, Ropen. unfold is_open, get_stream. cbn [e_streams].
    now rewrite lookup_app_r, Nat.sub_diag by lia. }
  repeat split; assumption.
Qed.

(** X14.  Every metadata query of a file that exists under a name with the
    right extension opens one more stream, whether the engine's preparation
    succeeds or not, and closes none: the streams that were open are still
    open afterwards, the one [user_ctx.fp] pointed to among them. *)
Theorem decoder_info_opens_one_more fn header0 (s s' : world) r fl :
  has_valid_extension fn = Some true ->
  find_file fn (e_fs (w_env s)) = Some fl ->
  decoder_info (SrcFile fn) header0 s = Some (r, s') ->
  length (e_streams (w_env s')) = S (length (e_streams (w_env s))) /\
  fp (user_ctx s') = Some (length (e_streams (w_env s))) /\
  is_open (fp (user_ctx s')) (w_env s') = true /\
  forall f, is_open f (w_env s) = true -> is_open f (w_env s') = true.
Proof.
  intros Hext Hfile. unfold decoder_info. cbn [lv_img_src_get_type].
  run_monad. rewrite Hext. unfold fopen. rewrite Hfile. world_simpl.
  destruct (run_engine _ _ _ _ _) as [[[[res [iw ih]] pv] d]|] eqn:Hrun;
    [|discriminate].
  apply run_engine_resources in Hrun; [|now right|now left].
  destruct Hrun as (Rfp & _ & _ & _ & _ & _ & _ & _ & _ & Rlen & Ropen).
  world_simpl.
  assert (Hall : length (e_streams (d_env d)) = S (length (e_streams (w_env s))) /\
                 fp (d_ctx d) = Some (length (e_streams (w_env s))) /\
                 is_open (fp (d_ctx d)) (d_env d) = true /\
                 forall f, is_open f (w_env s) = true -> is_open f (d_env d) = true).
  { split; [rewrite Rlen, length_app; cbn; lia|]. split; [exact Rfp|]. split.
    - rewrite Rfp, Ropen. unfold is_open, get_stream. cbn [e_streams].
      now rewrite lookup_app_r, Nat.sub_diag by lia.
    - intros f Hopen. rewrite Ropen. unfold is_open, get_stream in *.
      cbn [e_streams]. destruct f as [i|]; [|discriminate].
      destruct (e_streams (w_env s) !! i) as [[st|]|] eqn:Ei; try discriminate.
      now rewrite (lookup_app_l_Some _ _ _ _ Ei). }
  destruct res; world_simpl;
    [destruct (LV_TJPGD_SCALING_FACTOR_DIV =? 0); [discriminate|]|..].
  all: intros [= <- <-]; world_simpl; exact Hall.
Qed.

(** X15.  Start-up and close.  [lv_tjpgd_init] always succeeds and puts a
    new block of 20480 bytes in [user_ctx.work]; a [decoder_close] right
    after it (with no image data in the descriptor) frees that block and
    nothing else, so that as many blocks are allocated as before start-up;
    [user_ctx.work] keeps pointing to the freed block. *)
Theorem init_then_close dsc (s : world) :
  img_data dsc = NULL ->
  exists s1 s2,
    lv_tjpgd_init s = Some (tt, s1) /\
    work (user_ctx s1) = Some (length (e_heap (w_env s)), 0) /\
    block_size (length (e_heap (w_env s))) (e_heap (w_env s1)) = Some 20480 /\
    decoder_close dsc s1 = Some (tt, s2) /\
    work (user_ctx s2) = Some (length (e_heap (w_env s)), 0) /\
    live (length (e_heap (w_env s))) (e_heap (w_env s2)) = false /\
    live_count (e_heap (w_env s2)) = live_count (e_heap (w_env s)) /\
    forall b, (b < length (e_heap (w_env s)))%nat ->
              e_heap (w_env s2) !! b = e_heap (w_env s) !! b.
Proof.
  intros Himg. eexists _, _.
  split; [unfold lv_tjpgd_init, malloc; run_monad; world_simpl; reflexivity|].
  world_simpl. split; [reflexivity|].
  assert (Hnew : forall cs : list cell,
             (e_heap (w_env s) ++ [Some cs]) !! length (e_heap (w_env s))
             = Some (Some cs))
    by (intros cs; now rewrite lookup_app_r, Nat.sub_diag by lia).
  split.
  { unfold block_size. rewrite Hnew. rewrite length_replicate. reflexivity. }
  assert (Hlive : live (length (e_heap (w_env s)))
                    (e_heap (w_env s) ++
                     [Some (replicate (Z.to_nat TJPGD_WORK_BUFFER_SIZE) None)])
                  = true)
    by (unfold live; now rewrite Hnew).
  split.
  { unfold decoder_close. run_monad. world_simpl. rewrite Himg.
    unfold free. rewrite Hlive. cbn [Z.eqb andb is_null NULL]. reflexivity. }
  world_simpl. split; [reflexivity|]. split.
  { unfold live. rewrite list_lookup_insert_eq; [reflexivity|].
    rewrite length_app. cbn. lia. }
  split.
  { apply Nat.succ_inj. rewrite live_count_drop by exact Hlive.
    apply live_count_new. }
  intros b Hb. rewrite list_lookup_insert_ne by lia.
  now rewrite lookup_app_l by exact Hb.
Qed.
End ReadLine.

(** * The program at work on the small engine *)

Import Demo.

Lemma defined_parts {A} (o : option (A * world)) (da : A) (ds : world) :
  defined o = true -> o = Some (value_of da o, state_of ds o).
Proof. destruct o as [[a s]|]; [reflexivity|discriminate]. Qed.

Lemma info_parts (o : option (lv_res_t * lv_img_header_t * world)) r dr dh ds :
  option_map (fun x => fst (fst x)) o = Some r ->
  o = Some ((r, snd (value_of (dr, dh) o)), state_of ds o).
Proof. destruct o as [[[r0 hd] s]|]; [|discriminate]. now intros [= ->]. Qed.

Lemma read_parts (o : option (lv_res_t * world)) r ds :
  option_map fst o = Some r -> o = Some (r, state_of ds o).
Proof. destruct o as [[r0 s]|]; [|discriminate]. now intros [= ->]. Qed.

(** The header of "a.jpg", which is 2 x 16: it says 2 x 8. *)
Lemma decoder_info_header_witness :
  lv_coord_t_of (width (jdec (info_world "a.jpg"))) = width (jdec (info_world "a.jpg")) /\
  height (jdec (info_world "a.jpg")) = 16 /\
  w (info_header "a.jpg") = 2 /\
  h (info_header "a.jpg") = 8.
Proof.
  assert (Hrun : decoder_info (SrcFile "a.jpg") header0 booted
                 = Some ((LV_RES_OK, info_header "a.jpg"), info_world "a.jpg"))
    by (unfold info_header, info_world, info_run; apply info_parts;
        vm_compute; reflexivity).
  assert (Hc : lv_coord_t_of (width (jdec (info_world "a.jpg")))
               = width (jdec (info_world "a.jpg")))
    by (vm_compute; reflexivity).
  split; [exact Hc|]. split; [vm_compute; reflexivity|].
  destruct (decoder_info_header "a.jpg" header0 (info_header "a.jpg") booted
              (info_world "a.jpg") Hrun Hc
              ltac:(vm_compute; reflexivity) ltac:(vm_compute; reflexivity))
    as (_ & Hw & Hh).
  split; [rewrite Hw; vm_compute; reflexivity|exact Hh].
Defined.

(** The first sixteen line reads of "a.jpg" after start-up. *)
Lemma sixteen_rows_witness :
  buffered_data (world_after "a.jpg" 0) = false /\
  lines_sent (world_after "a.jpg" 0) = 0 /\
  map snd (value_of [] sixteen_run)
  = [1; 0; 0; 0; 0; 0; 0; 0; 1; 0; 0; 0; 0; 0; 0; 0]%nat.
Proof.
  assert (Hb : buffered_data (world_after "a.jpg" 0) = false)
    by (vm_compute; reflexivity).
  assert (Hl : lines_sent (world_after "a.jpg" 0) = 0)
    by (vm_compute; reflexivity).
  assert (Hrows : map r_y (lines 16 0 (line_buffer "a.jpg" 0))
                  = [0; 1; 2; 3; 4; 5; 6; 7; 8; 9; 10; 11; 12; 13; 14; 15])
    by (vm_compute; reflexivity).
  assert (Hrun : read_rows (dsc_of "a.jpg") (lines 16 0 (line_buffer "a.jpg" 0))
                   (world_after "a.jpg" 0)
                 = Some (value_of [] sixteen_run,
                         state_of (world_after "a.jpg" 0) sixteen_run))
    by (unfold sixteen_run; apply defined_parts; vm_compute; reflexivity).
  split; [exact Hb|]. split; [exact Hl|].
  exact (proj1 (sixteen_rows_two_decompressions _ _ _ _ _ Hb Hl Hrows Hrun)).
Defined.

(** C3 at work: the second line read of "a.jpg" is served from the strip. *)
Lemma decoder_read_serves_line_witness :
  buffered_data (world_after "a.jpg" 1) = true /\
  trace (read_world "a.jpg" 1) = trace (world_after "a.jpg" 1) /\
  (buffered_data (read_world "a.jpg" 1) = false
   <-> 7 < bumped (world_after "a.jpg" 1)).
Proof.
  assert (Hb : buffered_data (world_after "a.jpg" 1) = true)
    by (vm_compute; reflexivity).
  assert (Hrun : decoder_read (dsc_of "a.jpg") 0 (Z.of_nat 1) 2
                   (line_buffer "a.jpg" 1) (world_after "a.jpg" 1)
                 = Some (LV_RES_OK, read_world "a.jpg" 1))
    by (unfold read_world, read_run; apply read_parts; vm_compute; reflexivity).
  destruct (decoder_read_serves_line _ _ _ _ _ _ _ _ Hb Hrun)
    as (_ & Ht & _ & _ & Hiff & _).
  split; [exact Hb|]. split; [exact Ht|exact Hiff].
Defined.

(** C9 at work: after the first line of "a.jpg" a request for column 1 of
    row 5 is answered like the request for row 1 that is due. *)
Lemma decoder_read_ignores_coordinates_witness :
  stray_run = read_run "a.jpg" 1 /\
  option_map fst stray_run = Some LV_RES_OK.
Proof.
  destruct (decoder_read_ignores_coordinates (dsc_of "a.jpg") 1 5 0 (Z.of_nat 1)
              2 (line_buffer "a.jpg" 1) (world_after "a.jpg" 1))
    as (Hsame & _ & _).
  split; [exact Hsame|]. vm_compute. reflexivity.
Defined.


(** C5 does not hold as worded: "bad.jpg" ends inside its header, the
    engine's preparation fails with [JDR_INP], [decoder_info] reports
    failure, and the stream it opened is still open. *)
Lemma decoder_info_failure_leaks_stream :
  match info_run "bad.jpg" with
  | Some ((r, _), s') =>
      r = LV_RES_INV /\
      trace s' = [EvPrepare; EvResult JDR_INP] /\
      is_open (fp (user_ctx s')) (w_env booted) = false /\
      ~ is_open (fp (user_ctx s')) (w_env s') = false
  | None => False
  end.
Proof. vm_compute. repeat split. discriminate. Qed.

(** C5 at work, in the form proved above, on the same run. *)
Lemma decoder_info_failure_keeps_stream_witness :
  has_valid_extension "bad.jpg" = Some true /\
  fst (fopen "bad.jpg" (w_env booted)) = Some 0%nat /\
  is_open (Some 0%nat) (w_env (info_world "bad.jpg")) = true /\
  fp (user_ctx (info_world "bad.jpg")) = Some 0%nat.
Proof.
  assert (Hext : has_valid_extension "bad.jpg" = Some true) by reflexivity.
  assert (Hopen : fst (fopen "bad.jpg" (w_env booted)) = Some 0%nat)
    by (vm_compute; reflexivity).
  assert (Hrun : decoder_info (SrcFile "bad.jpg") header0 booted
                 = Some ((LV_RES_INV, info_header "bad.jpg"), info_world "bad.jpg"))
    by (unfold info_header, info_world, info_run; apply info_parts;
        vm_compute; reflexivity).
  destruct (decoder_info_failure_keeps_stream _ _ _ _ _ _ Hext Hopen Hrun)
    as (_ & Hnow & Hfp & _).
  split; [exact Hext|]. split; [exact Hopen|]. split; [exact Hnow|exact Hfp].
Defined.

(** C3 does not hold as worded: at the eighth line read of "a.jpg" the
    incremented counter is 8, which does not exceed the strip height 8, and
    yet the strip is dropped and its buffer (block 2) freed. *)
Lemma strip_dropped_at_eight :
  match read_run "a.jpg" 7 with
  | Some (r, s8) =>
      let s7 := world_after "a.jpg" 7 in
      buffered_data s7 = true /\
      bumped s7 = 8 /\
      frame_buffer (user_ctx s7) = Some (2%nat, 0) /\
      buffered_data s8 = false /\
      live 2 (e_heap (w_env s8)) = false /\
      ~ (buffered_data s8 = false <-> 8 < bumped s7)
  | None => False
  end.
Proof.
  vm_compute. repeat split. intros [Hto _].
  specialize (Hto eq_refl). discriminate.
Qed.

(** C4, the code at the failing input: "cut.jpg" ends inside its first
    strip.  The engine's decompression fails with [JDR_INP]; the line read
    reports success all the same, hands out a line whose second pixel was
    never decoded, and keeps the strip, so that the next read is served
    from it without a new decompression. *)
Theorem decoder_read_hides_decomp_error :
  match read_run "cut.jpg" 0 with
  | Some (r, s1) =>
      let s0 := world_after "cut.jpg" 0 in
      buffered_data s0 = false /\
      trace s1 = trace s0 ++ [EvDecomp 8 0; EvResult JDR_INP] /\
      r = LV_RES_OK /\
      buffered_data s1 = true /\
      load (line_buffer "cut.jpg" 0) 6 (e_heap (w_env s1))
      = Some [Some Byte.x01; Some Byte.x02; Some Byte.x03; None; None; None] /\
      match decoder_read (dsc_of "cut.jpg") 0 1 2 (line_buffer "cut.jpg" 0) s1 with
      | Some (r2, s2) => r2 = LV_RES_OK /\ trace s2 = trace s1
      | None => False
      end
  | None => False
  end.
Proof. vm_compute. repeat split. Qed.

(** C6, the code at the failing input: start-up, metadata query, open, one
    line read and close of "a.jpg".  The work area (block 0) is freed; the
    strip buffer (block 2) is still allocated, the stream is still open,
    and the statics of [decoder_read] still say that a strip with one line
    served is at hand.  A metadata query after that hands the freed work
    area to the engine. *)
Theorem decoder_close_leaves_session_state :
  match decoder_close {| src := SrcFile "a.jpg"; img_data := NULL |}
          (world_after "a.jpg" 1) with
  | Some (_, s) =>
      work (user_ctx s) = Some (0%nat, 0) /\
      live 0 (e_heap (w_env s)) = false /\
      frame_buffer (user_ctx s) = Some (2%nat, 0) /\
      live 2 (e_heap (w_env s)) = true /\
      is_open (fp (user_ctx s)) (w_env s) = true /\
      buffered_data s = true /\
      lines_sent s = 1 /\
      decoder_info (SrcFile "a.jpg") header0 s = None
  | None => False
  end.
Proof. vm_compute. repeat split. Qed.

Lemma some_parts {A} (o : option A) (d : A) :
  defined o = true -> o = Some (default d o).
Proof. destruct o; [reflexivity|discriminate]. Qed.

(** C7 at work: the engine asks for four bytes of "a.jpg" into its work
    area, right after the header has been read. *)
Lemma on_feed_decoder_cb_contract_witness :
  fp (d_ctx (dstate_of (world_after "a.jpg" 0))) = Some 0%nat /\
  get_stream (Some 0%nat) (d_env (dstate_of (world_after "a.jpg" 0)))
  = Some stream_a /\
  Z.of_nat (length (readable 4 stream_a)) = 4 /\
  exists d',
    on_feed_decoder_cb DevUserCtx (Some (0%nat, 0)) 4
      (dstate_of (world_after "a.jpg" 0))
    = Some (Z.of_nat (length (readable 4 stream_a)), d') /\
    load (Some (0%nat, 0)) (Z.of_nat (length (readable 4 stream_a)))
      (e_heap (d_env d'))
    = Some (map Some (readable 4 stream_a)).
Proof.
  assert (Hfp : fp (d_ctx (dstate_of (world_after "a.jpg" 0))) = Some 0%nat)
    by (vm_compute; reflexivity).
  assert (Hst : get_stream (Some 0%nat) (d_env (dstate_of (world_after "a.jpg" 0)))
                = Some stream_a)
    by (vm_compute; reflexivity).
  assert (Hpos : 0 <= s_pos stream_a) by (cbn; lia).
  assert (Hn : 0 <= 4 < 65536) by lia.
  assert (Hstore :
            store (Some (0%nat, 0)) (map Some (readable 4 stream_a))
              (e_heap (d_env (dstate_of (world_after "a.jpg" 0))))
            = Some (default []
                      (store (Some (0%nat, 0)) (map Some (readable 4 stream_a))
                         (e_heap (d_env (dstate_of (world_after "a.jpg" 0)))))))
    by (apply some_parts; vm_compute; reflexivity).
  split; [exact Hfp|]. split; [exact Hst|]. split; [vm_compute; reflexivity|].
  destruct (proj1 (on_feed_decoder_cb_contract _ (Some (0%nat, 0)) 4 _ _
                     Hfp Hst Hpos Hn) _ _ eq_refl Hstore)
    as (d' & Hcb & _ & Hload & _).
  exists d'. split; [exact Hcb|exact Hload].
Defined.

(** The row copy of the second column of a strip two pixels wide. *)
Lemma on_decoder_line_output_cb_rows_witness :
  0 <= top column_1 /\
  bottom column_1 < 65535 /\
  on_decoder_line_output_cb DevUserCtx (Some (1%nat, 0)) column_1
    (strip_dstate 2 (pixels 24))
  = row_copy_as_stated (Some (1%nat, 0)) column_1 (strip_dstate 2 (pixels 24)) /\
  load (Some (0%nat, 9)) 3
    (heap_of (on_decoder_line_output_cb DevUserCtx (Some (1%nat, 0)) column_1
                (strip_dstate 2 (pixels 24))))
  = Some [Some Byte.x04; Some Byte.x05; Some Byte.x06].
Proof.
  assert (Htop : 0 <= top column_1) by (cbn; lia).
  assert (Hbot : bottom column_1 < 65535) by (cbn; lia).
  split; [exact Htop|]. split; [exact Hbot|].
  split; [|vm_compute; reflexivity].
  apply (proj1 (proj2 (on_decoder_line_output_cb_rows (Some (1%nat, 0)) column_1
                         (strip_dstate 2 (pixels 24)) Htop Hbot))).
  - vm_compute. split; [discriminate|reflexivity].
  - vm_compute. split; [discriminate|reflexivity].
Defined.

(** C8, the code at the failing input: a frame buffer 30000 pixels wide,
    three bytes a pixel, and a rectangle of two lines of one pixel.  The
    stride of the frame buffer, 90000 bytes, is kept in the [uint16_t]
    [bwd], which holds 90000 mod 65536 = 24464: the second line of the
    rectangle lands at byte 24464 of the frame buffer, inside the first
    line, and not at byte 90000, where the stride of the frame buffer puts
    it. *)
Lemma row_copy_stride_wraps :
  let d := strip_dstate 30000 (pixels 6) in
  let code := on_decoder_line_output_cb DevUserCtx (Some (1%nat, 0)) two_lines d in
  let stated := row_copy_as_stated (Some (1%nat, 0)) two_lines d in
  defined code = true /\
  defined stated = true /\
  load (Some (0%nat, 24464)) 3 (heap_of code)
  = Some [Some Byte.x04; Some Byte.x05; Some Byte.x06] /\
  load (Some (0%nat, 90000)) 3 (heap_of code) = Some [None; None; None] /\
  load (Some (0%nat, 90000)) 3 (heap_of stated)
  = Some [Some Byte.x04; Some Byte.x05; Some Byte.x06] /\
  code <> stated.
Proof.
  intros d code stated.
  assert (Hcode : load (Some (0%nat, 90000)) 3 (heap_of code)
                  = Some [None; None; None]) by (vm_compute; reflexivity).
  assert (Hstated : load (Some (0%nat, 90000)) 3 (heap_of stated)
                    = Some [Some Byte.x04; Some Byte.x05; Some Byte.x06])
    by (vm_compute; reflexivity).
  split; [vm_compute; reflexivity|]. split; [vm_compute; reflexivity|].
  split; [vm_compute; reflexivity|]. split; [exact Hcode|].
  split; [exact Hstated|].
  intros Heq. rewrite Heq, Hstated in Hcode. clear Heq. discriminate Hcode.
Qed.

(** C1, the code at the failing input: the metadata query of "wide.jpg", an
    image 2048 pixels wide and 16 high, with LVGL 7's types and the scale
    divisor 1.  The engine prepares and reports the width 2048;
    [decoder_info] reports success with a header 0 pixels wide (2048 does
    not fit the 11 bits of the field) and 8 high.  Of the two copies of the
    width kept in [user_ctx], [frame_buffer_width], computed from
    [jdec.width], holds 2048, and [size.width], copied from the header,
    holds 0. *)
Theorem decoder_info_width_2048 :
  match Wide.info_run with
  | Some ((r, header), s) =>
      r = LV_RES_OK /\
      trace s = [EvPrepare; EvResult JDR_OK] /\
      width (jdec s) = 2048 /\
      height (jdec s) = 16 /\
      Z.quot (width (jdec s)) LV_TJPGD_SCALING_FACTOR_DIV = 2048 /\
      w header = 0 /\
      h header = 8 /\
      frame_buffer_width (user_ctx s) = 2048 /\
      size (user_ctx s) = {| sz_height := 8; sz_width := 0 |}
  | None => False
  end.
Proof. vm_compute. repeat split. Qed.

(** C2, the code at the failing input: a second session on "a.jpg", begun
    after three line reads of the first.  The query and the open succeed,
    the engine has prepared anew and the new stream stands behind the
    header, but the statics of [decoder_read] still say that a strip with
    three lines served is at hand.  Of the sixteen line reads for rows 0 to
    15 the calls for rows 0 to 4 are served from the strip of the first
    session (the call for row 0 hands out row 3 of the image); the engine
    decompresses in the calls for rows 5 and 13 only, as the stream
    positions show (2 until the call for row 5, 50 from then on, 98 from
    the call for row 13 on), and the call for row 5 hands out row 0 of the
    image. *)
Theorem second_session_decompresses_late :
  option_map fst reopened = Some (LV_RES_OK, LV_RES_OK) /\
  trace second_session
  = (trace (world_after "a.jpg" 3) ++ [EvPrepare; EvResult JDR_OK])%list /\
  stream_pos second_session = Some 2 /\
  buffered_data second_session = true /\
  lines_sent second_session = 3 /\
  option_map (fun r => map snd (fst r)) (second_reads 16)
  = Some [0; 0; 0; 0; 0; 1; 0; 0; 0; 0; 0; 0; 0; 1; 0; 0]%nat /\
  option_map (fun r => map fst (fst r)) (second_reads 16)
  = Some (repeat LV_RES_OK 16) /\
  map (fun n => stream_pos (second_world n)) [0; 5; 6; 13; 14; 16]%nat
  = [Some 2; Some 2; Some 50; Some 50; Some 98; Some 98] /\
  line_read (world_after "a.jpg" 1) = Some [1; 2; 3; 25; 26; 27] /\
  line_read (world_after "a.jpg" 4) = Some [10; 11; 12; 34; 35; 36] /\
  line_read (second_world 1) = Some [10; 11; 12; 34; 35; 36] /\
  line_read (second_world 6) = Some [1; 2; 3; 25; 26; 27].
Proof. vm_compute. repeat split. Qed.

(** ** The further properties at work *)

Lemma run_parts {A S} (o : option (A * S)) (da : A) (ds : S) :
  defined o = true -> o = Some (value_of da o, state_of ds o).
Proof. destruct o as [[a s]|]; [reflexivity|discriminate]. Qed.

(** X1 at work: the second column of a strip two pixels wide. *)
Lemma row_copy_in_bounds_witness :
  block_size 0 (e_heap (d_env (strip_dstate 2 (pixels 24)))) = Some 48 /\
  block_size 1 (e_heap (d_env (strip_dstate 2 (pixels 24)))) = Some 24 /\
  exists d',
    on_decoder_line_output_cb DevUserCtx (Some (1%nat, 0)) column_1
      (strip_dstate 2 (pixels 24)) = Some (1, d').
Proof.
  assert (Hnf : block_size 0 (e_heap (d_env (strip_dstate 2 (pixels 24))))
                = Some 48) by (vm_compute; reflexivity).
  assert (Hnb : block_size 1 (e_heap (d_env (strip_dstate 2 (pixels 24))))
                = Some 24) by (vm_compute; reflexivity).
  split; [exact Hnf|]. split; [exact Hnb|].
  destruct (row_copy_in_bounds 1%nat 0 0%nat column_1
              (strip_dstate 2 (pixels 24)) 48 24)
    as (d' & Hcb & _);
    try exact Hnf; try exact Hnb; try reflexivity; try discriminate;
    try (vm_compute; split; discriminate).
  exists d'. exact Hcb.
Defined.

(** X3 at work: at the end of "a.jpg" a request for 24 bytes delivers none
    and is counted all the same. *)
Lemma on_feed_decoder_cb_counts_requests_witness :
  value_of 0 feed_at_end = 0 /\
  fp_consumed_bytes (d_ctx (state_of (dstate_of (world_after "a.jpg" 16)) feed_at_end))
  = fp_consumed_bytes (d_ctx (dstate_of (world_after "a.jpg" 16))) + 24.
Proof.
  assert (Hn : 0 <= 24 < 65536) by lia.
  assert (Hrun : on_feed_decoder_cb DevUserCtx (Some (0%nat, 0)) 24
                   (dstate_of (world_after "a.jpg" 16))
                 = Some (value_of 0 feed_at_end,
                         state_of (dstate_of (world_after "a.jpg" 16)) feed_at_end))
    by (unfold feed_at_end; apply run_parts; vm_compute; reflexivity).
  destruct (on_feed_decoder_cb_counts_requests _ _ _ _ _ _ Hn Hrun) as [_ Hctx].
  split; [vm_compute; reflexivity|].
  rewrite Hctx. vm_compute. reflexivity.
Defined.

(** X4 at work: the engine decodes a strip. *)
Lemma engine_run_keeps_resources_witness :
  defined strip_run = true /\
  same_resources (dstate_of (world_after "a.jpg" 1))
    (state_of (dstate_of (world_after "a.jpg" 1)) strip_run).
Proof.
  assert (Hdef : defined strip_run = true) by (vm_compute; reflexivity).
  assert (Hrun : run_engine (Some on_feed_decoder_cb)
                   (Some on_decoder_line_output_cb) DevUserCtx
                   (toy_strip 2 0 8 (Some (0%nat, 0)))
                   (dstate_of (world_after "a.jpg" 1))
                 = Some (value_of (JDR_OK, NULL) strip_run,
                         state_of (dstate_of (world_after "a.jpg" 1)) strip_run))
    by (unfold strip_run; apply run_parts; vm_compute; reflexivity).
  split; [exact Hdef|].
  exact (engine_run_keeps_resources _ _ _ _ _ Hrun).
Defined.


(** X6 at work: a whole session. *)
Lemma statics_ok_kept_witness :
  statics_ok booted /\ defined session_run = true /\
  statics_ok (state_of booted session_run).
Proof.
  assert (Hinv : statics_ok booted) by (vm_compute; reflexivity).
  assert (Hdef : defined session_run = true) by (vm_compute; reflexivity).
  assert (Hrun : run_ops session_ops booted
                 = Some (value_of tt session_run, state_of booted session_run))
    by (unfold session_run; apply run_parts; vm_compute; reflexivity).
  split; [exact Hinv|]. split; [exact Hdef|].
  exact (statics_ok_kept _ _ _ _ Hinv Hrun).
Defined.

(** X7 at work: after sixteen line reads as many blocks are allocated as
    before. *)
Lemma read_rows_blocks_witness :
  strip_ok (world_after "a.jpg" 0) /\
  (live_count (e_heap (w_env (state_of (world_after "a.jpg" 0) sixteen_run)))
   + b2n (buffered_data (world_after "a.jpg" 0))
   = live_count (e_heap (w_env (world_after "a.jpg" 0)))
     + b2n (buffered_data (state_of (world_after "a.jpg" 0) sixteen_run)))%nat /\
  buffered_data (state_of (world_after "a.jpg" 0) sixteen_run) = false.
Proof.
  assert (Hinv : strip_ok (world_after "a.jpg" 0)).
  { intros Hb. vm_compute in Hb. discriminate Hb. }
  assert (Hrun : read_rows (dsc_of "a.jpg") (lines 16 0 (line_buffer "a.jpg" 0))
                   (world_after "a.jpg" 0)
                 = Some (value_of [] sixteen_run,
                         state_of (world_after "a.jpg" 0) sixteen_run))
    by (unfold sixteen_run; apply run_parts; vm_compute; reflexivity).
  split; [exact Hinv|]. split; [|vm_compute; reflexivity].
  exact (proj2 (read_rows_blocks _ _ _ _ _ Hinv Hrun)).
Defined.

(** X8 at work: a second close. *)
Lemma decoder_close_twice_witness :
  work (user_ctx (world_after "a.jpg" 1)) <> NULL /\
  defined close_run = true /\
  decoder_close (dsc_of "a.jpg") (state_of (world_after "a.jpg" 1) close_run)
  = None.
Proof.
  assert (Hw : work (user_ctx (world_after "a.jpg" 1)) <> NULL).
  { intros Hnull. vm_compute in Hnull. discriminate Hnull. }
  assert (Hdef : defined close_run = true) by (vm_compute; reflexivity).
  assert (Hrun : decoder_close (dsc_of "a.jpg") (world_after "a.jpg" 1)
                 = Some (value_of tt close_run,
                         state_of (world_after "a.jpg" 1) close_run))
    by (unfold close_run; apply run_parts; vm_compute; reflexivity).
  split; [exact Hw|]. split; [exact Hdef|].
  exact (decoder_close_twice _ (dsc_of "a.jpg") _ _ _ Hw Hrun).
Defined.

(** X9 at work: the query of "a.jpg". *)
Lemma decoder_info_ok_iff_witness :
  exists fn,
    SrcFile "a.jpg" = SrcFile fn /\
    trace (info_world "a.jpg")
    = (trace booted ++ [EvPrepare; EvResult JDR_OK])%list.
Proof.
  assert (Hrun : decoder_info (SrcFile "a.jpg") header0 booted
                 = Some ((LV_RES_OK, info_header "a.jpg"), info_world "a.jpg"))
    by (unfold info_header, info_world, info_run; apply info_parts;
        vm_compute; reflexivity).
  destruct (proj1 (proj1 (decoder_info_ok_iff _ _ _ _ _ _ Hrun)) eq_refl)
    as [Hv|Hfile]; [discriminate Hv|exact Hfile].
Defined.

(** X10 at work: a name that is not in the file system. *)
Lemma decoder_info_missing_file_witness :
  has_valid_extension "none.jpg" = Some true /\
  find_file "none.jpg" (e_fs (w_env booted)) = None /\
  option_map (fun x => fst (fst x)) (decoder_info (SrcFile "none.jpg") header0 booted)
  = Some LV_RES_INV.
Proof.
  assert (Hext : has_valid_extension "none.jpg" = Some true) by reflexivity.
  assert (Hfile : find_file "none.jpg" (e_fs (w_env booted)) = None)
    by (vm_compute; reflexivity).
  split; [exact Hext|]. split; [exact Hfile|].
  rewrite (proj1 (decoder_info_missing_file "none.jpg" header0 booted Hext Hfile)).
  reflexivity.
Defined.

(** X11 at work: the open of a file that is not there succeeds and clears
    [img_data]. *)
Lemma decoder_open_result_witness :
  defined open_missing = true /\
  fst (value_of (LV_RES_INV, dsc_of "") open_missing) = LV_RES_OK /\
  img_data (snd (value_of (LV_RES_INV, dsc_of "") open_missing)) = NULL.
Proof.
  assert (Hdef : defined open_missing = true) by (vm_compute; reflexivity).
  assert (Hok : fst (value_of (LV_RES_INV, dsc_of "") open_missing) = LV_RES_OK)
    by (vm_compute; reflexivity).
  assert (Hrun : decoder_open {| src := SrcFile "missing.jpg";
                                 img_data := Some (7%nat, 0) |} booted
                 = Some ((fst (value_of (LV_RES_INV, dsc_of "") open_missing),
                          snd (value_of (LV_RES_INV, dsc_of "") open_missing)),
                         state_of booted open_missing)).
  { unfold open_missing in *.
    destruct (decoder_open _ booted) as [[[r d] s]|]; [reflexivity|discriminate Hdef]. }
  split; [exact Hdef|]. split; [exact Hok|].
  destruct (decoder_open_result _ _ _ _ _ Hrun) as (_ & _ & _ & Hnull & _).
  exact (Hnull "missing.jpg"%string eq_refl Hok).
Defined.

(** X12 at work: a line read before any metadata query. *)
Lemma decoder_read_undefined_witness :
  buffered_data booted = false /\
  is_open (fp (user_ctx booted)) (w_env booted) = false /\
  decoder_read (dsc_of "a.jpg") 0 0 2 (Some (0%nat, 0)) booted = None.
Proof.
  assert (Hb : buffered_data booted = false) by (vm_compute; reflexivity).
  assert (Hc : is_open (fp (user_ctx booted)) (w_env booted) = false)
    by (vm_compute; reflexivity).
  split; [exact Hb|]. split; [exact Hc|].
  apply decoder_read_undefined. right. right. split; [exact Hb|exact Hc].
Defined.

(** X13 at work: the query of "a.jpg". *)
Lemma decoder_info_session_fields_witness :
  is_open (fp (user_ctx (info_world "a.jpg"))) (w_env (info_world "a.jpg")) = true /\
  frame_buffer_width (user_ctx (info_world "a.jpg")) = 2 /\
  size (user_ctx (info_world "a.jpg")) = {| sz_height := 8; sz_width := 2 |}.
Proof.
  assert (Hrun : decoder_info (SrcFile "a.jpg") header0 booted
                 = Some ((LV_RES_OK, info_header "a.jpg"), info_world "a.jpg"))
    by (unfold info_header, info_world, info_run; apply info_parts;
        vm_compute; reflexivity).
  destruct (decoder_info_session_fields _ _ _ _ _ Hrun)
    as (Hopen & _ & _ & _ & _ & Hw & Hsz & _).
  split; [exact Hopen|]. split.
  - rewrite Hw. vm_compute. reflexivity.
  - rewrite Hsz. vm_compute. reflexivity.
Defined.

(** X14 at work: a second query of "a.jpg" leaves two open streams. *)
Lemma decoder_info_opens_one_more_witness :
  find_file "a.jpg" (e_fs (w_env (info_world "a.jpg"))) = Some file_a /\
  is_open (Some 0%nat) (w_env (info_world "a.jpg")) = true /\
  length (e_streams (w_env (state_of booted second_info)))
  = S (length (e_streams (w_env (info_world "a.jpg")))) /\
  is_open (Some 0%nat) (w_env (state_of booted second_info)) = true /\
  is_open (fp (user_ctx (state_of booted second_info)))
    (w_env (state_of booted second_info)) = true.
Proof.
  assert (Hext : has_valid_extension "a.jpg" = Some true) by reflexivity.
  assert (Hfile : find_file "a.jpg" (e_fs (w_env (info_world "a.jpg")))
                  = Some file_a) by (vm_compute; reflexivity).
  assert (Hwas : is_open (Some 0%nat) (w_env (info_world "a.jpg")) = true)
    by (vm_compute; reflexivity).
  assert (Hrun : decoder_info (SrcFile "a.jpg") header0 (info_world "a.jpg")
                 = Some (value_of (LV_RES_INV, header0) second_info,
                         state_of booted second_info))
    by (unfold second_info; apply run_parts; vm_compute; reflexivity).
  destruct (decoder_info_opens_one_more _ _ _ _ _ _ Hext Hfile Hrun)
    as (Hlen & _ & Hnew & Hold).
  split; [exact Hfile|]. split; [exact Hwas|]. split; [exact Hlen|].
  split; [exact (Hold _ Hwas)|exact Hnew].
Defined.

(** X15 at work: start-up and close on the empty heap. *)
Lemma init_then_close_witness :
  img_data (dsc_of "a.jpg") = NULL /\
  exists s1 s2,
    lv_tjpgd_init (boot files) = Some (tt, s1) /\
    decoder_close (dsc_of "a.jpg") s1 = Some (tt, s2) /\
    live_count (e_heap (w_env s2)) = live_count (e_heap (w_env (boot files))).
Proof.
  split; [reflexivity|].
  destruct (init_then_close (dsc_of "a.jpg") (boot files) eq_refl)
    as (s1 & s2 & Hinit & _ & _ & Hclose & _ & _ & Hcount & _).
  exists s1, s2. split; [exact Hinit|]. split; [exact Hclose|exact Hcount].
Defined.

(** X16 at work: the fourth line of "a.jpg" is the slice of the strip that
    starts 18 bytes in. *)
Lemma hits_serve_consecutive_slices_witness :
  lvgl_feeder_ptr (user_ctx (world_after "a.jpg" 1)) = Some (2%nat, 6) /\
  bytes_asked next_lines = 12 /\
  lvgl_feeder_ptr (user_ctx (state_of (world_after "a.jpg" 1) slices_run))
  = Some (2%nat, 6 + bytes_asked (next_lines ++ [fourth_line])) /\
  load (r_buf fourth_line) 6
    (e_heap (w_env (state_of (world_after "a.jpg" 1) slices_run)))
  = load (Some (2%nat, 18)) 6 (e_heap (w_env (world_after "a.jpg" 1))).
Proof.
  assert (Hb : buffered_data (world_after "a.jpg" 1) = true)
    by (vm_compute; reflexivity).
  assert (Hl0 : 0 <= lines_sent (world_after "a.jpg" 1))
    by (vm_compute; discriminate).
  assert (Hl7 : lines_sent (world_after "a.jpg" 1)
                + Z.of_nat (length next_lines) + 1 <= 7)
    by (vm_compute; discriminate).
  assert (Hcur : lvgl_feeder_ptr (user_ctx (world_after "a.jpg" 1))
                 = Some (2%nat, 6)) by (vm_compute; reflexivity).
  assert (Hbufs : Forall (fun c => block_of (r_buf c) <> Some 2%nat)
                    (next_lines ++ [fourth_line])).
  { vm_compute. repeat constructor; intros Heq; discriminate Heq. }
  assert (Hrun : read_rows (dsc_of "a.jpg") (next_lines ++ [fourth_line])
                   (world_after "a.jpg" 1)
                 = Some (value_of [] slices_run,
                         state_of (world_after "a.jpg" 1) slices_run))
    by (unfold slices_run; apply run_parts; vm_compute; reflexivity).
  assert (Hsum : bytes_asked next_lines = 12) by (vm_compute; reflexivity).
  destruct (hits_serve_consecutive_slices _ _ _ _ _ _ _ _ Hb Hl0 Hl7 Hcur Hbufs Hrun)
    as ((pixels & Hsrc & Hdst) & Hcur' & _).
  split; [exact Hcur|]. split; [exact Hsum|]. split; [exact Hcur'|].
  rewrite Hsum in Hsrc.
  change (r_len fourth_line * BYTES_ON_PIXEL) with 6 in Hsrc, Hdst.
  change (6 + 12) with 18 in Hsrc.
  now rewrite Hsrc, Hdst.
Defined.
